(** * AIS trajectory classification pipeline

    A shallow embedding of the classification pipeline of
    [filter_vlm_processing/vlm_processing.py] (and of its earlier sibling
    [trajectory_processor.py]): trajectory building, the self-proximity
    scan, the rule classifier, the interpretation of the external verifier's
    answer, result aggregation and persistence.

    Conventions of the embedding.
    - A finite Python float is modelled by the rational it denotes ([Q]);
      a float that may be NaN is an [option Q] with [None] for NaN.  The
      pipeline only adds, divides and compares such values.
    - A Python [str] is the list of its code points ([text]).
    - Python exceptions are explicit: a computation that may raise returns a
      [result]; [try]/[except] is a match on it.
    - Functions of third-party libraries whose results are not determined by
      this repository (projection, centroid, distance, plotting, the
      verification service, the file system) are fields of the classes
      [Libraries] and [Services]; every definition that calls one takes the
      instance as an argument. *)

From Stdlib Require Import String Ascii.
From Stdlib Require Import List ZArith QArith Qabs Bool NArith Lia.
From Stdlib Require Import Permutation Sorted.
From Stdlib Require Import Floats Uint63.
From Stdlib Require Import Qround Lqa.
Import ListNotations.

Local Open Scope Z_scope.
Set Warnings "-register-all".

(** ** Python values shared by all components *)

Module Py.

(** A [str]: its code points. *)
Definition text := list N.

Definition py (s : string) : text :=
  map N_of_ascii (list_ascii_of_string s).

Definition text_eqb (a b : text) : bool :=
  if list_eq_dec N.eq_dec a b then true else false.

(** Exception classes the pipeline distinguishes, and [str(e)]. *)
Inductive exn_class :=
| JSONDecodeError | AttributeError | KeyError | ValueError
| CRSError | ProjError | OSError | APIError.

Record exn := Exn { exn_cls : exn_class; exn_str : text }.

Inductive result (A : Type) :=
| Ok (a : A)
| Raise (e : exn).
Arguments Ok {A} a.
Arguments Raise {A} e.

Definition bind {A B} (m : result A) (k : A -> result B) : result B :=
  match m with
  | Ok a => k a
  | Raise e => Raise e
  end.

(** [<] on finite floats. *)
Definition Qltb (x y : Q) : bool := negb (Qle_bool y x).

(** [int(x)] on a finite float: truncation toward zero. *)
Definition py_int (q : Q) : Z := Z.quot (Qnum q) (Zpos (Qden q)).

(** [range(a, b)] over naturals. *)
Definition range (a b : nat) : list nat := seq a (b - a).

(** [str.isspace] on one code point. *)
Definition isspace (c : N) : bool :=
  ((9 <=? c) && (c <=? 13) || (28 <=? c) && (c <=? 32)
   || (c =? 133) || (c =? 160) || (c =? 5760)
   || (8192 <=? c) && (c <=? 8202)
   || (c =? 8232) || (c =? 8233) || (c =? 8239) || (c =? 8287)
   || (c =? 12288))%N.

Fixpoint lstrip (s : text) : text :=
  match s with
  | c :: s' => if isspace c then lstrip s' else s
  | [] => []
  end.

(** [str.strip()] *)
Definition strip (s : text) : text := rev (lstrip (rev (lstrip s))).

End Py.
Import Py.

Notation "x <- m ;; k" := (bind m (fun x => k))
  (at level 61, m at next level, right associativity).

(** ** Geometry shared by the projection engine and the proximity analyzer *)

(** A coordinate pair [(x, y)]: [(lon, lat)] in EPSG:4326, metres once
    projected. *)
Definition coord := (Q * Q)%type.

(** A shapely [LineString] is its coordinate sequence; [is_empty] is [[]]. *)
Definition LineString := list coord.

Definition is_empty (l : LineString) : bool :=
  match l with [] => true | _ => false end.

Inductive CRS :=
| EPSG_3857
| UTM (zone : Z) (south : bool).

(** The geometry libraries (shapely, pyproj, geopandas, scipy). *)
Class Libraries := {
  (** [trajectory.centroid]: [None] when it is not a non-empty [Point]. *)
  centroid : LineString -> option coord;
  (** [CRS.from_dict] of pyproj on the UTM parameters; it may raise. *)
  CRS_from_dict : Z -> bool -> result CRS;
  (** [GeoSeries.to_crs] of geopandas on the one-line series; it may raise. *)
  to_crs : CRS -> LineString -> result LineString;
  (** [scipy.spatial.distance.euclidean] on two rows of the projected array. *)
  euclidean : coord -> coord -> Q;
  (** [projected_line.length] *)
  line_length : LineString -> Q
}.

Section ProjectionEngine.
Context {Lib : Libraries}.

(** [estimate_utm_crs(lat, lon)] *)
Definition estimate_utm_crs (lat lon : Q) : result CRS :=
  CRS_from_dict (py_int ((lon + 180) / 6) + 1) (Qltb lat 0).

(** The choice of [target_crs], written twice in the source (in
    [count_self_proximity_hits] and in [process_trajectories]):
<<
      target_crs = 'EPSG:3857'
      if isinstance(centroid, Point) and not centroid.is_empty:
          try: target_crs = estimate_utm_crs(centroid.y, centroid.x)
          except Exception: pass
>> *)
Definition choose_target_crs (traj : LineString) : CRS :=
  match centroid traj with
  | Some (x, y) =>
      match estimate_utm_crs y x with
      | Ok c => c
      | Raise _ => EPSG_3857
      end
  | None => EPSG_3857
  end.

(** [gs.to_crs(target_crs).iloc[0]] *)
Definition project (traj : LineString) : result LineString :=
  to_crs (choose_target_crs traj) traj.

End ProjectionEngine.

(** ** ProximityAnalyzer *)

Section ProximityAnalyzer.
Context {Lib : Libraries}.

(** [adjacency_window = max(2, int(total_points * 0.1))] *)
Definition adjacency_window (total_points : nat) : Z :=
  Z.max 2 (py_int (inject_Z (Z.of_nat total_points) * (1 # 10))).

(** The body of the inner [for j in range(i + 1, total_points)]. *)
Definition scan_j (coords : list coord) (t : Q) (w : Z) (i : nat)
  (hit_count : Z) (j : nat) : Z :=
  if Z.abs (Z.of_nat i - Z.of_nat j) <=? w then hit_count
  else
    let dist := euclidean (nth i coords (0, 0)%Q) (nth j coords (0, 0)%Q) in
    if Qltb dist t then hit_count + 1 else hit_count.

(** The two nested loops. *)
Definition scan (coords : list coord) (t : Q) : Z :=
  let total_points := length coords in
  let w := adjacency_window total_points in
  fold_left
    (fun hit_count i =>
       fold_left (scan_j coords t w i) (range (i + 1) total_points) hit_count)
    (range 0 total_points) 0.

(** The [try] block of [count_self_proximity_hits]. *)
Definition count_body (trajectory : LineString) (t : Q) : result Z :=
  let hit_count := 0 in
  projected_line <- project trajectory ;;
  if is_empty projected_line then Ok hit_count
  else
    let coords := projected_line in
    if (length coords <? 5)%nat then Ok hit_count
    else Ok (scan coords t).

(** [count_self_proximity_hits(trajectory, proximity_threshold_meters)];
    [None] is Python's [None]. *)
Definition count_self_proximity_hits (trajectory : option LineString)
  (proximity_threshold_meters : Q) : Z :=
  let hit_count := 0 in
  match trajectory with
  | None => hit_count
  | Some trajectory =>
      if is_empty trajectory then hit_count
      else
        let coords_list := trajectory in
        if (length coords_list <? 5)%nat then hit_count
        else
          match count_body trajectory proximity_threshold_meters with
          | Ok n => n
          | Raise _ => 0
          end
  end.

End ProximityAnalyzer.

(** ** Classifier *)

Record Metrics := {
  avg_sog : option Q;
  length_km : Q;
  bbox_width_m : Q;
  bbox_height_m : Q;
  proximity_hits : Z
}.

Record Thresholds := { speed : Q; size : Q; hits : Z }.

(** [THRESHOLDS = {'speed': 1.5, 'size': 500.0, 'hits': 50}] *)
Definition THRESHOLDS : Thresholds :=
  {| speed := 3 # 2; size := 500; hits := 50 |}.

(** The values of the variable [classification]; [Other] is its initial
    value. *)
Inductive Classification :=
| Other
| LikelyJitter
| LikelyJitterNoSOG
| PotentialPattern
| NoSignificantProximity.

Definition small_and_dense (m : Metrics) (th : Thresholds) : bool :=
  Qltb (bbox_width_m m) (size th) && Qltb (bbox_height_m m) (size th)
  && (hits th <? proximity_hits m).

(** The filter logic of [vlm_processing.process_trajectories]: the
    [if not pd.isna(...)] / [elif] pair sets [is_likely_jitter], then the
    proximity test runs when it is still false. *)
Definition classify (m : Metrics) (th : Thresholds) : Classification :=
  let '(is_likely_jitter, classification) :=
    match avg_sog m with
    | Some s =>
        if Qltb s (speed th) && small_and_dense m th
        then (true, LikelyJitter) else (false, Other)
    | None =>
        if small_and_dense m th
        then (true, LikelyJitterNoSOG) else (false, Other)
    end in
  if negb is_likely_jitter then
    if 0 <? proximity_hits m then PotentialPattern
    else NoSignificantProximity
  else classification.

(** The filter logic of [trajectory_processor.process_trajectories]: the
    same without the [elif]. *)
Definition classify_tp (m : Metrics) (th : Thresholds) : Classification :=
  let '(is_likely_jitter, classification) :=
    match avg_sog m with
    | Some s =>
        if Qltb s (speed th) && small_and_dense m th
        then (true, LikelyJitter) else (false, Other)
    | None => (false, Other)
    end in
  if negb is_likely_jitter then
    if 0 <? proximity_hits m then PotentialPattern
    else NoSignificantProximity
  else classification.

(** ** The decoder behind [json.loads]

    [extract_classification] calls [json.loads] of the Python standard
    library on the verifier's text.  The decoder is embedded as the two
    passes below: a scanner from code points to tokens, and a pushdown
    recogniser that builds the value.  It follows [json.decoder] with
    default arguments ([strict=True], no hooks): white space is
    [' \t\n\r'], the literals are [null], [true], [false], [NaN],
    [Infinity] and [-Infinity], numbers follow [NUMBER_RE], control
    characters are refused inside strings, [\uXXXX] pairs of surrogates are
    joined, a repeated key keeps its last value, and anything after the
    value but white space is an error.  Numbers keep their lexeme.  The
    interpreter's own limits (recursion depth, digits of an integer) are
    not part of the model. *)

Inductive json :=
| JNull
| JBool (b : bool)
| JNum (lexeme : text)
| JStr (s : text)
| JArr (items : list json)
| JObj (members : list (text * json)).

Inductive token :=
| TLBrace | TRBrace | TLBracket | TRBracket | TColon | TComma
| TValue (v : json).

Inductive num_state :=
| NMinus | NZero | NInt | NDot | NFrac | NExp | NExpSign | NExpDigits.

Inductive lex_state :=
| LStart
| LString (acc : text) (pend : option N)
| LEscape (acc : text) (pend : option N)
| LUnicode (acc : text) (pend : option N) (remaining : nat) (cp : N)
| LNumber (st : num_state) (acc : text)
| LLiteral (expected : text) (v : json).

Inductive lex_step_result :=
| LexError
| LexGo (st : lex_state) (emitted : list token).

Definition is_digit (c : N) : bool := ((48 <=? c) && (c <=? 57))%N.

Definition hex_value (c : N) : option N :=
  if ((48 <=? c) && (c <=? 57))%N then Some (c - 48)%N
  else if ((65 <=? c) && (c <=? 70))%N then Some (c - 55)%N
  else if ((97 <=? c) && (c <=? 102))%N then Some (c - 87)%N
  else None.

Definition is_high_surrogate (u : N) : bool :=
  ((55296 <=? u) && (u <=? 56319))%N.

Definition is_low_surrogate (u : N) : bool :=
  ((56320 <=? u) && (u <=? 57343))%N.

(** The characters read so far, most recent first, with a pending high
    surrogate appended. *)
Definition flush (pend : option N) (acc : text) : text :=
  match pend with
  | Some h => h :: acc
  | None => acc
  end.

(** The scanner between tokens. *)
Definition lex_start (c : N) : lex_step_result :=
  if ((c =? 32) || (c =? 9) || (c =? 10) || (c =? 13))%N then LexGo LStart []
  else if (c =? 123)%N then LexGo LStart [TLBrace]
  else if (c =? 125)%N then LexGo LStart [TRBrace]
  else if (c =? 91)%N then LexGo LStart [TLBracket]
  else if (c =? 93)%N then LexGo LStart [TRBracket]
  else if (c =? 58)%N then LexGo LStart [TColon]
  else if (c =? 44)%N then LexGo LStart [TComma]
  else if (c =? 34)%N then LexGo (LString [] None) []
  else if (c =? 45)%N then LexGo (LNumber NMinus [c]) []
  else if (c =? 48)%N then LexGo (LNumber NZero [c]) []
  else if is_digit c then LexGo (LNumber NInt [c]) []
  else if (c =? 110)%N then LexGo (LLiteral (py "ull") JNull) []
  else if (c =? 116)%N then LexGo (LLiteral (py "rue") (JBool true)) []
  else if (c =? 102)%N then LexGo (LLiteral (py "alse") (JBool false)) []
  else if (c =? 78)%N then LexGo (LLiteral (py "aN") (JNum (py "NaN"))) []
  else if (c =? 73)%N
  then LexGo (LLiteral (py "nfinity") (JNum (py "Infinity"))) []
  else LexError.

(** A number ends before [c]: its token is emitted and [c] is scanned as
    the start of what follows. *)
Definition end_number (acc : text) (c : N) : lex_step_result :=
  match lex_start c with
  | LexGo st toks => LexGo st (TValue (JNum (rev acc)) :: toks)
  | LexError => LexError
  end.

Definition is_e (c : N) : bool := ((c =? 101) || (c =? 69))%N.

Definition lex_number (st : num_state) (acc : text) (c : N)
  : lex_step_result :=
  match st with
  | NMinus =>
      if (c =? 48)%N then LexGo (LNumber NZero (c :: acc)) []
      else if is_digit c then LexGo (LNumber NInt (c :: acc)) []
      else if (c =? 73)%N
      then LexGo (LLiteral (py "nfinity") (JNum (py "-Infinity"))) []
      else LexError
  | NZero =>
      if (c =? 46)%N then LexGo (LNumber NDot (c :: acc)) []
      else if is_e c then LexGo (LNumber NExp (c :: acc)) []
      else end_number acc c
  | NInt =>
      if is_digit c then LexGo (LNumber NInt (c :: acc)) []
      else if (c =? 46)%N then LexGo (LNumber NDot (c :: acc)) []
      else if is_e c then LexGo (LNumber NExp (c :: acc)) []
      else end_number acc c
  | NDot =>
      if is_digit c then LexGo (LNumber NFrac (c :: acc)) [] else LexError
  | NFrac =>
      if is_digit c then LexGo (LNumber NFrac (c :: acc)) []
      else if is_e c then LexGo (LNumber NExp (c :: acc)) []
      else end_number acc c
  | NExp =>
      if ((c =? 43) || (c =? 45))%N then LexGo (LNumber NExpSign (c :: acc)) []
      else if is_digit c then LexGo (LNumber NExpDigits (c :: acc)) []
      else LexError
  | NExpSign =>
      if is_digit c then LexGo (LNumber NExpDigits (c :: acc)) []
      else LexError
  | NExpDigits =>
      if is_digit c then LexGo (LNumber NExpDigits (c :: acc)) []
      else end_number acc c
  end.

(** The character an escape stands for ([BACKSLASH] of [json.decoder]). *)
Definition escape_char (c : N) : option N :=
  if (c =? 34)%N then Some 34%N
  else if (c =? 92)%N then Some 92%N
  else if (c =? 47)%N then Some 47%N
  else if (c =? 98)%N then Some 8%N
  else if (c =? 102)%N then Some 12%N
  else if (c =? 110)%N then Some 10%N
  else if (c =? 114)%N then Some 13%N
  else if (c =? 116)%N then Some 9%N
  else None.

(** The end of a [\uXXXX] escape of value [u]. *)
Definition end_unicode (acc : text) (pend : option N) (u : N) : lex_state :=
  match pend with
  | Some h =>
      if is_low_surrogate u
      then LString ((65536 + ((h - 55296) * 1024 + (u - 56320)))%N :: acc) None
      else if is_high_surrogate u then LString (h :: acc) (Some u)
      else LString (u :: h :: acc) None
  | None =>
      if is_high_surrogate u then LString acc (Some u)
      else LString (u :: acc) None
  end.

Definition lex_step (st : lex_state) (c : N) : lex_step_result :=
  match st with
  | LStart => lex_start c
  | LString acc pend =>
      if (c =? 34)%N then LexGo LStart [TValue (JStr (rev (flush pend acc)))]
      else if (c =? 92)%N then LexGo (LEscape acc pend) []
      else if (c <? 32)%N then LexError
      else LexGo (LString (c :: flush pend acc) None) []
  | LEscape acc pend =>
      if (c =? 117)%N then LexGo (LUnicode acc pend 4 0%N) []
      else
        match escape_char c with
        | Some ch => LexGo (LString (ch :: flush pend acc) None) []
        | None => LexError
        end
  | LUnicode acc pend remaining cp =>
      match hex_value c with
      | Some d =>
          let cp' := (cp * 16 + d)%N in
          match remaining with
          | S (S r) => LexGo (LUnicode acc pend (S r) cp') []
          | _ => LexGo (end_unicode acc pend cp') []
          end
      | None => LexError
      end
  | LNumber ns acc => lex_number ns acc c
  | LLiteral expected v =>
      match expected with
      | e :: rest =>
          if (c =? e)%N then
            match rest with
            | [] => LexGo LStart [TValue v]
            | _ => LexGo (LLiteral rest v) []
            end
          else LexError
      | [] => LexError
      end
  end.

(** What the end of the text means in each state. *)
Definition lex_eof (st : lex_state) : option (list token) :=
  match st with
  | LStart => Some []
  | LNumber (NZero | NInt | NFrac | NExpDigits) acc =>
      Some [TValue (JNum (rev acc))]
  | _ => None
  end.

Fixpoint lex (st : lex_state) (s : text) : option (list token) :=
  match s with
  | [] => lex_eof st
  | c :: s' =>
      match lex_step st c with
      | LexError => None
      | LexGo st' toks =>
          match lex st' s' with
          | Some rest => Some (toks ++ rest)
          | None => None
          end
      end
  end.

(** [dict] items in insertion order; assigning an existing key replaces its
    value in place. *)
Fixpoint dict_set (k : text) (v : json) (d : list (text * json))
  : list (text * json) :=
  match d with
  | [] => [(k, v)]
  | (k', v') :: d' =>
      if text_eqb k k' then (k, v) :: d' else (k', v') :: dict_set k v d'
  end.

Fixpoint dict_lookup (k : text) (d : list (text * json)) : option json :=
  match d with
  | [] => None
  | (k', v') :: d' => if text_eqb k k' then Some v' else dict_lookup k d'
  end.

(** An enclosing array (items so far, last first) or object (members so
    far, and the key whose value is being read). *)
Inductive frame :=
| FArray (items : list json)
| FObject (members : list (text * json)) (key : text).

Inductive parse_state :=
| PValue (stack : list frame)
| PArrayStart (stack : list frame)
| PArrayNext (items : list json) (stack : list frame)
| PObjectStart (stack : list frame)
| PObjectKey (members : list (text * json)) (stack : list frame)
| PColon (members : list (text * json)) (key : text) (stack : list frame)
| PObjectNext (members : list (text * json)) (stack : list frame)
| PDone (v : json)
| PError.

(** A value is complete: it goes to the enclosing frame. *)
Definition reduce (v : json) (stack : list frame) : parse_state :=
  match stack with
  | [] => PDone v
  | FArray items :: st => PArrayNext (v :: items) st
  | FObject members key :: st => PObjectNext (dict_set key v members) st
  end.

Definition parse_value (stack : list frame) (t : token) : parse_state :=
  match t with
  | TValue v => reduce v stack
  | TLBracket => PArrayStart stack
  | TLBrace => PObjectStart stack
  | _ => PError
  end.

Definition parse_step (st : parse_state) (t : token) : parse_state :=
  match st with
  | PValue stack => parse_value stack t
  | PArrayStart stack =>
      match t with
      | TRBracket => reduce (JArr []) stack
      | _ => parse_value (FArray [] :: stack) t
      end
  | PArrayNext items stack =>
      match t with
      | TComma => PValue (FArray items :: stack)
      | TRBracket => reduce (JArr (rev items)) stack
      | _ => PError
      end
  | PObjectStart stack =>
      match t with
      | TRBrace => reduce (JObj []) stack
      | TValue (JStr k) => PColon [] k stack
      | _ => PError
      end
  | PObjectKey members stack =>
      match t with
      | TValue (JStr k) => PColon members k stack
      | _ => PError
      end
  | PColon members key stack =>
      match t with
      | TColon => PValue (FObject members key :: stack)
      | _ => PError
      end
  | PObjectNext members stack =>
      match t with
      | TComma => PObjectKey members stack
      | TRBrace => reduce (JObj members) stack
      | _ => PError
      end
  | PDone _ => PError
  | PError => PError
  end.

(** The pipeline looks at the class of the decoder's error only; one
    message stands for all of them. *)
Definition decode_error : exn := Exn JSONDecodeError (py "Expecting value").

(** [json.loads(s)] *)
Definition json_loads (s : text) : result json :=
  match lex LStart s with
  | None => Raise decode_error
  | Some toks =>
      match fold_left parse_step toks (PValue []) with
      | PDone v => Ok v
      | _ => Raise decode_error
      end
  end.

(** ** DataLoader output and TrajectoryBuilder *)

(** One row of the cleaned table.  [index] is the column added by
    [reset_index()] in [vlm_processing.load_ais_data]; [BaseDateTime] is
    [None] for [NaT]; [SOG] is [None] for NaN. *)
Record Fix := {
  index : Z;
  MMSI : Z;
  BaseDateTime : option Z;
  LAT : Q;
  LON : Q;
  SOG : option Q
}.

Record DataFrame := {
  rows : list Fix;
  (** ['SOG' in df.columns] *)
  has_SOG : bool
}.

(** [df.empty] *)
Definition empty (df : DataFrame) : bool :=
  match rows df with [] => true | _ => false end.

Fixpoint insert_key (k : Z) (ks : list Z) : list Z :=
  match ks with
  | [] => [k]
  | k' :: r =>
      if k <? k' then k :: ks
      else if k =? k' then ks
      else k' :: insert_key k r
  end.

(** The keys of [groupby('MMSI')]: ascending, each once. *)
Definition group_keys (rs : list Fix) : list Z :=
  fold_left (fun ks r => insert_key (MMSI r) ks) rs [].

Definition group_of (rs : list Fix) (k : Z) : list Fix :=
  filter (fun r => MMSI r =? k) rs.

(** [df.groupby('MMSI')]: groups by ascending key, rows in table order. *)
Definition groupby (rs : list Fix) : list (Z * list Fix) :=
  map (fun k => (k, group_of rs k)) (group_keys rs).

Definition key_error : exn := Exn KeyError [].

(** [grouped.get_group(mmsi)] *)
Definition get_group (rs : list Fix) (mmsi : Z) : result (list Fix) :=
  match find (fun g => fst g =? mmsi) (groupby rs) with
  | Some g => Ok (snd g)
  | None => Raise key_error
  end.

(** The order of the ['index'] column. *)
Definition by_index (a b : Fix) : bool := index a <=? index b.

(** The order of the ['BaseDateTime'] column; [NaT] comes last. *)
Definition by_BaseDateTime (a b : Fix) : bool :=
  match BaseDateTime a, BaseDateTime b with
  | Some x, Some y => x <=? y
  | Some _, None => true
  | None, Some _ => false
  | None, None => true
  end.

Fixpoint insert_by (le : Fix -> Fix -> bool) (r : Fix) (l : list Fix)
  : list Fix :=
  match l with
  | [] => [r]
  | x :: l' => if le r x then r :: l else x :: insert_by le r l'
  end.

(** [group.sort_values(by=...)], ascending in the order [le] of the column.
    Rows that the column does not tell apart keep their order here; pandas
    sorts with [kind='quicksort'], which may exchange them.  What is proved
    of a sorted table therefore uses only that it is a sorted rearrangement
    of its argument, and fixes the result only where the keys are
    distinct. *)
Definition sort_values (le : Fix -> Fix -> bool) (l : list Fix) : list Fix :=
  fold_right (insert_by le) [] l.

(** [Point(xy) for xy in zip(df['LON'], df['LAT'])] *)
Definition geometry (r : Fix) : coord := (LON r, LAT r).

(** [LineString(points)]: shapely refuses a single point. *)
Definition mk_LineString (pts : list coord) : result LineString :=
  match pts with
  | [_] => Raise (Exn ValueError [])
  | _ => Ok pts
  end.

(** The loop of [create_trajectories] over the groups; [column] is the
    sort column. *)
Fixpoint build_trajectories (column : Fix -> Fix -> bool) (min_points : Z)
  (groups : list (Z * list Fix)) (trajectories : list (Z * LineString))
  : result (list (Z * LineString)) :=
  match groups with
  | [] => Ok trajectories
  | (mmsi, group) :: rest =>
      if min_points <=? Z.of_nat (length group) then
        let group := sort_values column group in
        trajectory <- mk_LineString (map geometry group) ;;
        build_trajectories column min_points rest
          (trajectories ++ [(mmsi, trajectory)])
      else build_trajectories column min_points rest trajectories
  end.

(** [vlm_processing.create_trajectories(df, min_points)]: each group is
    sorted by ['index']. *)
Definition create_trajectories (df : DataFrame) (min_points : Z)
  : list (Z * LineString) :=
  if empty df then []
  else
    match build_trajectories by_index min_points (groupby (rows df)) [] with
    | Ok trajectories => trajectories
    | Raise _ => []
    end.

(** [trajectory_processor.create_trajectories(df, min_points)]: each group
    is sorted by ['BaseDateTime']. *)
Definition create_trajectories_tp (df : DataFrame) (min_points : Z)
  : list (Z * LineString) :=
  if empty df then []
  else
    match build_trajectories by_BaseDateTime min_points (groupby (rows df)) []
    with
    | Ok trajectories => trajectories
    | Raise _ => []
    end.

(** ** ExternalPatternVerifier and ResultAggregator *)

Inductive PlotDir :=
| base | jitter_dir | pattern_dir | no_prox_dir
| likely_survey_dir | possible_survey_dir.

(** [os.path.join(plot_dir, f"trajectory_{mmsi}.png")] *)
Definition PlotFile := (PlotDir * Z)%type.

Record Counts := {
  jitter : Z;
  pattern_vlm : Z;
  no_prox : Z;
  processed : Z;
  plotted : Z;
  likely_survey : Z;
  possible_survey : Z
}.

(** One entry of [pattern_info]. *)
Record PatternInfo := {
  mmsi_of : Z;
  info_length_km : Q;
  info_avg_sog : option Q;
  prox_hits : Z;
  info_bbox_width_m : Q;
  info_bbox_height_m : Q;
  survey_classification : json;
  vlm_raw_result : text
}.

(** The rows handed to the two [csv.DictWriter]s. *)
Inductive table :=
| SummaryTable (t : list (Z * Q * option Q * Z * Q * Q * json))
| FullTable (t : list PatternInfo).

(** The outside world of one run. *)
Class Services := {
  (** [plot_trajectory]: it catches its own errors and returns whether the
      image was saved. *)
  plot_trajectory : Z -> Classification -> Metrics -> PlotFile -> bool;
  (** Reading the image and [client.messages.create(...)], up to
      [message.content[0].text]; it raises on any failure of the client. *)
  messages_create : PlotFile -> result text;
  (** [shutil.copy2] *)
  copy2 : PlotFile -> PlotFile -> result unit;
  (** [datetime.now().strftime("%Y%m%d_%H%M%S")] *)
  now : text;
  (** Opening the file and writing header and rows. *)
  write_csv : text -> table -> result unit;
  (** [os.path.exists] and [os.makedirs] on an output directory. *)
  path_exists : PlotDir -> bool;
  makedirs : PlotDir -> result unit
}.

(** What a run leaves behind: the three values [process_trajectories]
    returns, and the files written while it ran. *)
Record Run := {
  counts : Counts;
  pattern_mmsis : list Z;
  pattern_info : list PatternInfo;
  plots : list PlotFile;
  copies : list PlotFile
}.

Definition zero_counts : Counts :=
  {| jitter := 0; pattern_vlm := 0; no_prox := 0; processed := 0;
     plotted := 0; likely_survey := 0; possible_survey := 0 |}.

Definition start : Run :=
  {| counts := zero_counts; pattern_mmsis := []; pattern_info := [];
     plots := []; copies := [] |}.

Definition with_counts (f : Counts -> Counts) (st : Run) : Run :=
  {| counts := f (counts st); pattern_mmsis := pattern_mmsis st;
     pattern_info := pattern_info st; plots := plots st;
     copies := copies st |}.

Definition incr_jitter (c : Counts) : Counts :=
  {| jitter := jitter c + 1; pattern_vlm := pattern_vlm c;
     no_prox := no_prox c; processed := processed c; plotted := plotted c;
     likely_survey := likely_survey c; possible_survey := possible_survey c |}.

Definition incr_pattern_vlm (c : Counts) : Counts :=
  {| jitter := jitter c; pattern_vlm := pattern_vlm c + 1;
     no_prox := no_prox c; processed := processed c; plotted := plotted c;
     likely_survey := likely_survey c; possible_survey := possible_survey c |}.

Definition incr_no_prox (c : Counts) : Counts :=
  {| jitter := jitter c; pattern_vlm := pattern_vlm c;
     no_prox := no_prox c + 1; processed := processed c; plotted := plotted c;
     likely_survey := likely_survey c; possible_survey := possible_survey c |}.

Definition incr_processed (c : Counts) : Counts :=
  {| jitter := jitter c; pattern_vlm := pattern_vlm c;
     no_prox := no_prox c; processed := processed c + 1; plotted := plotted c;
     likely_survey := likely_survey c; possible_survey := possible_survey c |}.

Definition incr_plotted (c : Counts) : Counts :=
  {| jitter := jitter c; pattern_vlm := pattern_vlm c;
     no_prox := no_prox c; processed := processed c; plotted := plotted c + 1;
     likely_survey := likely_survey c; possible_survey := possible_survey c |}.

Definition incr_likely_survey (c : Counts) : Counts :=
  {| jitter := jitter c; pattern_vlm := pattern_vlm c;
     no_prox := no_prox c; processed := processed c; plotted := plotted c;
     likely_survey := likely_survey c + 1;
     possible_survey := possible_survey c |}.

Definition incr_possible_survey (c : Counts) : Counts :=
  {| jitter := jitter c; pattern_vlm := pattern_vlm c;
     no_prox := no_prox c; processed := processed c; plotted := plotted c;
     likely_survey := likely_survey c;
     possible_survey := possible_survey c + 1 |}.

Definition add_pattern_mmsi (mmsi : Z) (st : Run) : Run :=
  {| counts := counts st; pattern_mmsis := pattern_mmsis st ++ [mmsi];
     pattern_info := pattern_info st; plots := plots st;
     copies := copies st |}.

Definition add_pattern_info (i : PatternInfo) (st : Run) : Run :=
  {| counts := counts st; pattern_mmsis := pattern_mmsis st;
     pattern_info := pattern_info st ++ [i]; plots := plots st;
     copies := copies st |}.

Definition add_plot (f : PlotFile) (st : Run) : Run :=
  {| counts := counts st; pattern_mmsis := pattern_mmsis st;
     pattern_info := pattern_info st; plots := plots st ++ [f];
     copies := copies st |}.

Definition add_copy (f : PlotFile) (st : Run) : Run :=
  {| counts := counts st; pattern_mmsis := pattern_mmsis st;
     pattern_info := pattern_info st; plots := plots st;
     copies := copies st ++ [f] |}.

Section Verifier.
Context {Srv : Services}.

(** [analyze_trajectory_with_claude(image_path, mmsi, api_key)] *)
Definition analyze_trajectory_with_claude (image_path : PlotFile) : text :=
  match messages_create image_path with
  | Ok message_text => strip message_text
  | Raise e => py "ERROR: " ++ exn_str e
  end.

(** [result_json.get("classification", "UNKNOWN")]; only a [dict] has
    [get]. *)
Definition get_classification (result_json : json) : result json :=
  match result_json with
  | JObj members =>
      match dict_lookup (py "classification") members with
      | Some v => Ok v
      | None => Ok (JStr (py "UNKNOWN"))
      end
  | _ => Raise (Exn AttributeError [])
  end.

(** [extract_classification(vlm_result)] *)
Definition extract_classification (vlm_result : text) : json :=
  match (result_json <- json_loads vlm_result ;;
         get_classification result_json) with
  | Ok v => v
  | Raise (Exn JSONDecodeError _) => JStr (py "PARSING_ERROR")
  | Raise _ => JStr (py "ERROR")
  end.

(** [survey_classification == "..."] *)
Definition is_str (v : json) (s : string) : bool :=
  match v with
  | JStr s' => text_eqb s' (py s)
  | _ => false
  end.

End Verifier.

(** ** The per-vessel loop *)

Definition Qmin2 (a b : Q) : Q := if Qle_bool a b then a else b.
Definition Qmax2 (a b : Q) : Q := if Qle_bool a b then b else a.

(** [projected_line.bounds]: [(minx, miny, maxx, maxy)] *)
Definition bounds (l : LineString) : Q * Q * Q * Q :=
  match l with
  | [] => (0, 0, 0, 0)%Q
  | p :: r =>
      fold_left
        (fun b q =>
           let '(minx, miny, maxx, maxy) := b in
           (Qmin2 minx (fst q), Qmin2 miny (snd q),
            Qmax2 maxx (fst q), Qmax2 maxy (snd q)))
        r (fst p, snd p, fst p, snd p)
  end.

(** [Series.mean()]: NaN entries are skipped; NaN when nothing is left. *)
Definition mean (l : list (option Q)) : option Q :=
  let present := flat_map (fun o => match o with Some v => [v] | None => [] end) l in
  match present with
  | [] => None
  | _ => Some (fold_left Qplus present 0%Q / inject_Z (Z.of_nat (length present)))%Q
  end.

(** How a pass through the loop body ends. *)
Inductive signal :=
| Finished
| Continue
| Raised (e : exn).

(** The counter and the directory that go with a classification. *)
Definition count_classification (c : Classification) (mmsi : Z) (st : Run)
  : Run :=
  match c with
  | LikelyJitter | LikelyJitterNoSOG => with_counts incr_jitter st
  | PotentialPattern =>
      add_pattern_mmsi mmsi (with_counts incr_pattern_vlm st)
  | NoSignificantProximity => with_counts incr_no_prox st
  | Other => st
  end.

Definition plot_dir_of (c : Classification) : option PlotDir :=
  match c with
  | LikelyJitter | LikelyJitterNoSOG => Some jitter_dir
  | PotentialPattern => Some pattern_dir
  | NoSignificantProximity => Some no_prox_dir
  | Other => None
  end.

Section Pipeline.
Context {Lib : Libraries} {Srv : Services}.

(** The metrics of one vessel, once its projection is at hand. *)
Definition metrics_of (df : DataFrame) (mmsi_group : list Fix)
  (traj projected_line : LineString) : Metrics :=
  let '(minx, miny, maxx, maxy) := bounds projected_line in
  {| avg_sog := if has_SOG df then mean (map SOG mmsi_group) else None;
     length_km := line_length projected_line / 1000;
     bbox_width_m := maxx - minx;
     bbox_height_m := maxy - miny;
     proximity_hits := count_self_proximity_hits (Some traj) 200 |}.

(** The block under [if classification == "Potential Pattern for VLM":] *)
Definition verify (mmsi : Z) (metrics : Metrics) (plot_filename : PlotFile)
  (st : Run) : Run * signal :=
  let vlm_result := analyze_trajectory_with_claude plot_filename in
  let survey_classification := extract_classification vlm_result in
  let st :=
    add_pattern_info
      {| mmsi_of := mmsi;
         info_length_km := length_km metrics;
         info_avg_sog := avg_sog metrics;
         prox_hits := proximity_hits metrics;
         info_bbox_width_m := bbox_width_m metrics;
         info_bbox_height_m := bbox_height_m metrics;
         survey_classification := survey_classification;
         vlm_raw_result := vlm_result |} st in
  if is_str survey_classification "LIKELY_SURVEY_PATTERN" then
    match copy2 plot_filename (likely_survey_dir, mmsi) with
    | Raise e => (st, Raised e)
    | Ok _ =>
        (with_counts incr_likely_survey
           (add_copy (likely_survey_dir, mmsi) st), Finished)
    end
  else if is_str survey_classification "POSSIBLE_SURVEY_PATTERN" then
    match copy2 plot_filename (possible_survey_dir, mmsi) with
    | Raise e => (st, Raised e)
    | Ok _ =>
        (with_counts incr_possible_survey
           (add_copy (possible_survey_dir, mmsi) st), Finished)
    end
  else (st, Finished).

(** The [try] block of the loop of
    [vlm_processing.process_trajectories]. *)
Definition vessel_body (df : DataFrame) (thresholds : Thresholds)
  (mmsi : Z) (traj : LineString) (st : Run) : Run * signal :=
  match get_group (rows df) mmsi with
  | Raise e => (st, Raised e)
  | Ok mmsi_group =>
      match project traj with
      | Raise e => (st, Raised e)
      | Ok projected_line =>
          if is_empty projected_line then (st, Continue)
          else
            let metrics := metrics_of df mmsi_group traj projected_line in
            let classification := classify metrics thresholds in
            let st := count_classification classification mmsi st in
            match plot_dir_of classification with
            | None => (st, Finished)
            | Some plot_dir =>
                let plot_filename := (plot_dir, mmsi) in
                if plot_trajectory mmsi classification metrics plot_filename
                then
                  let st := with_counts incr_plotted (add_plot plot_filename st) in
                  match classification with
                  | PotentialPattern => verify mmsi metrics plot_filename st
                  | _ => (st, Finished)
                  end
                else (st, Finished)
            end
      end
  end.

(** One pass of the [for] loop: [except Exception] swallows what the body
    raised, [counts['processed'] += 1] follows the [try] statement, and
    [continue] jumps over it. *)
Definition iteration (body : Z -> LineString -> Run -> Run * signal)
  (st : Run) (entry : Z * LineString) : Run :=
  let '(st', s) := body (fst entry) (snd entry) st in
  match s with
  | Continue => st'
  | Finished | Raised _ => with_counts incr_processed st'
  end.

(** [vlm_processing.process_trajectories(trajectories, ais_df_subset,
    thresholds, plot_dirs, claude_api_key)]; the result holds [counts],
    [pattern_mmsis] and [pattern_info]. *)
Definition process_trajectories (trajectories : list (Z * LineString))
  (ais_df_subset : DataFrame) (thresholds : Thresholds) : Run :=
  fold_left (iteration (vessel_body ais_df_subset thresholds))
    trajectories start.

(** The [try] block of the loop of
    [trajectory_processor.process_trajectories]: no verifier. *)
Definition vessel_body_tp (df : DataFrame) (thresholds : Thresholds)
  (mmsi : Z) (traj : LineString) (st : Run) : Run * signal :=
  match get_group (rows df) mmsi with
  | Raise e => (st, Raised e)
  | Ok mmsi_group =>
      match project traj with
      | Raise e => (st, Raised e)
      | Ok projected_line =>
          if is_empty projected_line then (st, Continue)
          else
            let metrics := metrics_of df mmsi_group traj projected_line in
            let classification := classify_tp metrics thresholds in
            let st :=
              match classification with
              | LikelyJitter => with_counts incr_jitter st
              | PotentialPattern => with_counts incr_pattern_vlm st
              | NoSignificantProximity => with_counts incr_no_prox st
              | _ => st
              end in
            match plot_dir_of classification with
            | None => (st, Finished)
            | Some plot_dir =>
                let plot_filename := (plot_dir, mmsi) in
                if plot_trajectory mmsi classification metrics plot_filename
                then (with_counts incr_plotted (add_plot plot_filename st),
                      Finished)
                else (st, Finished)
            end
      end
  end.

(** [trajectory_processor.process_trajectories(trajectories,
    ais_df_subset, thresholds, plot_dirs)] *)
Definition process_trajectories_tp (trajectories : list (Z * LineString))
  (ais_df_subset : DataFrame) (thresholds : Thresholds) : Run :=
  fold_left (iteration (vessel_body_tp ais_df_subset thresholds))
    trajectories start.

(** ** Persistence and the main block *)

Inductive event :=
| Printed (msg : text)
| PrintedCreated (n : nat)
| PrintedSummary (c : Counts)
| Wrote (path : text) (t : table).

(** [os.path.join(a, b)] for a relative [b]. *)
Definition path_join (a b : text) : text :=
  match rev a with
  | [] => b
  | c :: _ => if (c =? 47)%N then a ++ b else a ++ py "/" ++ b
  end.

Definition summary_row (i : PatternInfo)
  : Z * Q * option Q * Z * Q * Q * json :=
  (mmsi_of i, info_length_km i, info_avg_sog i, prox_hits i,
   info_bbox_width_m i, info_bbox_height_m i, survey_classification i).

(** [save_vlm_results(pattern_info, output_path)]: what it prints and
    writes.  It has no result and lets no exception out. *)
Definition save_vlm_results (pattern_info : list PatternInfo)
  (output_path : text) : list event :=
  match pattern_info with
  | [] => [Printed (py "No pattern information to save.")]
  | _ =>
      let timestamp := now in
      let filename :=
        path_join output_path
          (py "vlm_analysis_results_" ++ timestamp ++ py ".csv") in
      match write_csv filename (SummaryTable (map summary_row pattern_info))
      with
      | Raise e => [Printed (py "Error saving VLM results: " ++ exn_str e)]
      | Ok _ =>
          let full_filename :=
            path_join output_path
              (py "vlm_analysis_full_" ++ timestamp ++ py ".csv") in
          [Wrote filename (SummaryTable (map summary_row pattern_info));
           Printed (py "VLM analysis results saved to " ++ filename)]
          ++
          match write_csv full_filename (FullTable pattern_info) with
          | Raise e => [Printed (py "Error saving VLM results: " ++ exn_str e)]
          | Ok _ =>
              [Wrote full_filename (FullTable pattern_info);
               Printed (py "Full VLM analysis results (including raw output) saved to "
                      ++ full_filename)]
          end
      end
  end.

(** The set-up loop of the main block over [PLOT_DIRS.values()]. *)
Fixpoint setup (dirs : list PlotDir) : result unit :=
  match dirs with
  | [] => Ok tt
  | d :: rest =>
      if path_exists d then setup rest
      else (_ <- makedirs d ;; setup rest)
  end.

Definition PLOT_DIRS : list PlotDir :=
  [base; jitter_dir; pattern_dir; no_prox_dir;
   likely_survey_dir; possible_survey_dir].

(** The workflow of the main block of [vlm_processing.py] once
    [load_ais_data] has returned [candidate_df]; [BASE_PLOT_DIR] is
    [PLOT_DIRS['base']]. *)
Definition workflow (candidate_df : DataFrame) (BASE_PLOT_DIR : text)
  : list event :=
  (if negb (empty candidate_df) then
     let vessel_trajectories := create_trajectories candidate_df 5 in
     match vessel_trajectories with
     | [] => [Printed (py "No trajectories created from the candidate data.")]
     | _ =>
         let r := process_trajectories vessel_trajectories candidate_df
                    THRESHOLDS in
         [PrintedCreated (length vessel_trajectories); PrintedSummary (counts r)]
         ++
         match pattern_info r with
         | [] => []
         | _ => save_vlm_results (pattern_info r) BASE_PLOT_DIR
         end
     end
   else [Printed (py "Loading candidate data failed. Cannot plot.")])
  ++ [Printed (py "Reprocessing finished.")].

(** The main block: an exception of the set-up is the only one that ends
    the run. *)
Definition main (candidate_df : DataFrame) (BASE_PLOT_DIR : text)
  : result (list event) :=
  _ <- setup PLOT_DIRS ;;
  Ok (workflow candidate_df BASE_PLOT_DIR).

End Pipeline.

(** * Definitions used by the statements *)

(** ** Proximity pairs *)

Section HitPairs.
Context {Lib : Libraries}.

(** Whether the loop counts the pair [(i, j)]. *)
Definition counted (coords : list coord) (t : Q) (w : Z) (i j : nat) : bool :=
  negb (Z.abs (Z.of_nat i - Z.of_nat j) <=? w)
  && Qltb (euclidean (nth i coords (0, 0)%Q) (nth j coords (0, 0)%Q)) t.

(** The pairs the loop counts, in the order it meets them. *)
Definition hit_pairs (coords : list coord) (t : Q) : list (nat * nat) :=
  let n := length coords in
  flat_map
    (fun i =>
       map (pair i)
         (filter (counted coords t (adjacency_window n) i) (range (i + 1) n)))
    (range 0 n).

End HitPairs.

(** ** The adjacency window in binary64

    [total_points * 0.1] is a product of binary64 numbers in the source.
    The definitions below compute it as such, with the primitive floats,
    to compare it with the rational reading of [adjacency_window]. *)

(** [int(f)] on a binary64 number. *)
Definition float_int (f : float) : Z :=
  match Prim2SF f with
  | S754_finite s m e =>
      let v :=
        if 0 <=? e then Z.shiftl (Z.pos m) e else Z.shiftr (Z.pos m) (- e) in
      if s then - v else v
  | _ => 0
  end.

(** [max(2, int(total_points * 0.1))] with the binary64 nearest to 0.1. *)
Definition adjacency_window_binary64 (total_points : nat) : Z :=
  Z.max 2
    (float_int
       (PrimFloat.mul (PrimFloat.of_uint63 (Uint63.of_Z (Z.of_nat total_points)))
          0x1.999999999999ap-4%float)).

(** ** Classifier, in the words of the specification *)

(** The four branches in their order: a condition and the classification
    it gives. *)
Definition branches (m : Metrics) (th : Thresholds)
  : list (bool * Classification) :=
  [ (match avg_sog m with
     | Some s =>
         Qltb s (speed th) && Qltb (bbox_width_m m) (size th)
         && Qltb (bbox_height_m m) (size th) && (hits th <? proximity_hits m)
     | None => false
     end, LikelyJitter);
    (match avg_sog m with
     | Some _ => false
     | None =>
         Qltb (bbox_width_m m) (size th)
         && Qltb (bbox_height_m m) (size th) && (hits th <? proximity_hits m)
     end, LikelyJitterNoSOG);
    (0 <? proximity_hits m, PotentialPattern);
    (true, NoSignificantProximity) ].

(** The branches of [trajectory_processor.py], which has none for a
    missing speed. *)
Definition branches_tp (m : Metrics) (th : Thresholds)
  : list (bool * Classification) :=
  [ (match avg_sog m with
     | Some s =>
         Qltb s (speed th) && Qltb (bbox_width_m m) (size th)
         && Qltb (bbox_height_m m) (size th) && (hits th <? proximity_hits m)
     | None => false
     end, LikelyJitter);
    (0 <? proximity_hits m, PotentialPattern);
    (true, NoSignificantProximity) ].

(** First match wins. *)
Definition first_match (bs : list (bool * Classification))
  : option Classification :=
  match find fst bs with
  | Some b => Some (snd b)
  | None => None
  end.

(** ** Concrete worlds

    A small table of fixes and library behaviours on which the statements
    are evaluated.  The vessels sail on the parallel [lat = 0]; the
    projection of these worlds maps a degree to 100 km, and their distance
    is the Euclidean distance of two points of equal ordinate. *)

Definition mk_fix (i mmsi t : Z) (lon : Q) (sog : option Q) : Fix :=
  {| index := i; MMSI := mmsi; BaseDateTime := Some t;
     LAT := 0; LON := lon; SOG := sog |}.

(** Vessel 111 comes back to its start after 3 km; vessel 222 sails
    straight; vessel 333 has three fixes. *)
Definition demo_df : DataFrame :=
  {| rows :=
       [ mk_fix 0 111 10 0 (Some 8%Q);
         mk_fix 1 222 10 0 (Some 8%Q);
         mk_fix 2 111 20 (1 # 100) (Some 8%Q);
         mk_fix 3 222 20 (1 # 100) (Some 8%Q);
         mk_fix 4 333 20 (5 # 100) (Some 8%Q);
         mk_fix 5 111 30 (2 # 100) (Some 8%Q);
         mk_fix 6 222 30 (2 # 100) (Some 8%Q);
         mk_fix 7 333 30 (6 # 100) (Some 8%Q);
         mk_fix 8 111 40 (3 # 100) (Some 8%Q);
         mk_fix 9 222 40 (3 # 100) (Some 8%Q);
         mk_fix 10 333 40 (7 # 100) (Some 8%Q);
         mk_fix 11 111 50 (1 # 1000) (Some 8%Q);
         mk_fix 12 222 50 (4 # 100) (Some 8%Q);
         mk_fix 13 111 60 (1 # 2000) (Some 8%Q) ];
     has_SOG := true |}.

Definition track_111 : LineString :=
  [ (0, 0); (1 # 100, 0); (2 # 100, 0); (3 # 100, 0);
    (1 # 1000, 0); (1 # 2000, 0) ]%Q.

Definition track_222 : LineString :=
  [ (0, 0); (1 # 100, 0); (2 # 100, 0); (3 # 100, 0); (4 # 100, 0) ]%Q.

(** Five fixes of one vessel whose timestamps run against the order of the
    table. *)
Definition backwards_df : DataFrame :=
  {| rows :=
       [ mk_fix 0 7 50 0 None;
         mk_fix 1 7 40 (1 # 100) None;
         mk_fix 2 7 30 (2 # 100) None;
         mk_fix 3 7 20 (3 # 100) None;
         mk_fix 4 7 10 (4 # 100) None ];
     has_SOG := false |}.

Definition to_metres (l : LineString) : LineString :=
  map (fun p => (fst p * 100000, snd p * 100000)%Q) l.

Definition distance_on_parallel (p q : coord) : Q := Qabs (fst p - fst q).

Fixpoint path_length (l : LineString) : Q :=
  match l with
  | p :: (q :: _) as r => (distance_on_parallel p q + path_length r)%Q
  | _ => 0%Q
  end.

Definition utm_zone_ok (zone : Z) (south : bool) : result CRS :=
  if (1 <=? zone) && (zone <=? 60) then Ok (UTM zone south)
  else Raise (Exn CRSError (py "Invalid UTM zone"))%string.

(** Libraries that work. *)
Definition demo_libraries : Libraries :=
  {| centroid := fun l => hd_error l;
     CRS_from_dict := utm_zone_ok;
     to_crs := fun _ l => Ok (to_metres l);
     euclidean := distance_on_parallel;
     line_length := path_length |}.

(** Libraries whose reprojection to a UTM zone raises, and works to
    EPSG:3857. *)
Definition utm_fails_libraries : Libraries :=
  {| centroid := fun l => hd_error l;
     CRS_from_dict := utm_zone_ok;
     to_crs := fun c l =>
       match c with
       | UTM _ _ => Raise (Exn ProjError (py "Invalid projection"))
       | EPSG_3857 => Ok (to_metres l)
       end;
     euclidean := distance_on_parallel;
     line_length := path_length |}.

(** Services that plot and copy without failure; [answer] is the
    verification service and [write] the file system. *)
Definition demo_services (answer : PlotFile -> result text)
  (write : text -> table -> result unit) : Services :=
  {| plot_trajectory := fun _ _ _ _ => true;
     messages_create := answer;
     copy2 := fun _ _ => Ok tt;
     now := py "20250101_120000";
     write_csv := write;
     path_exists := fun _ => true;
     makedirs := fun _ => Ok tt |}.

Definition service_down : PlotFile -> result text :=
  fun _ => Raise (Exn APIError (py "Connection error.")).

Definition service_says (r : string) : PlotFile -> result text :=
  fun _ => Ok (py r).

Definition disk_ok : text -> table -> result unit := fun _ _ => Ok tt.

Definition disk_full : text -> table -> result unit :=
  fun _ _ => Raise (Exn OSError (py "[Errno 28] No space left on device")).

(** ** Orders of a group *)

(** A trajectory holds the points of [group] in the order [le]: it lists
    a rearrangement of the group that is sorted by [le]. *)
Definition ordered_by (le : Fix -> Fix -> bool) (group : list Fix)
  (traj : LineString) : Prop :=
  exists sorted_group,
    Permutation sorted_group group
    /\ StronglySorted (fun a b => le a b = true) sorted_group
    /\ traj = map geometry sorted_group.

(** The points of a vessel's group sorted by timestamp. *)
Definition by_timestamp (df : DataFrame) (mmsi : Z) : LineString :=
  map geometry (sort_values by_BaseDateTime (group_of (rows df) mmsi)).

(** The points of a vessel's group in the order of the table. *)
Definition by_ingestion (df : DataFrame) (mmsi : Z) : LineString :=
  map geometry (group_of (rows df) mmsi).

Definition timestamps_present (df : DataFrame) (mmsi : Z) : Prop :=
  forall r, In r (group_of (rows df) mmsi) -> BaseDateTime r <> None.

(** ** What a run mentions *)

(** The vessels named in what a run returns or writes. *)
Definition mentions (st : Run) : list Z :=
  pattern_mmsis st ++ map mmsi_of (pattern_info st)
  ++ map snd (plots st) ++ map snd (copies st).

(** The sum of the three classification counters. *)
Definition classified (c : Counts) : Z := jitter c + pattern_vlm c + no_prox c.

(** ** The ways a vessel leaves the loop body early *)

Section EarlyExits.
Context {Lib : Libraries}.

(** The body raises before the vessel is classified: its group is not in
    the table, or the reprojection raises. *)
Definition fails_early (df : DataFrame) (e : Z * LineString) : bool :=
  match get_group (rows df) (fst e) with
  | Raise _ => true
  | Ok _ => match project (snd e) with Raise _ => true | Ok _ => false end
  end.

(** The body reaches [continue]: the projected line is empty. *)
Definition projects_empty (df : DataFrame) (e : Z * LineString) : bool :=
  match get_group (rows df) (fst e) with
  | Raise _ => false
  | Ok _ => match project (snd e) with Ok [] => true | _ => false end
  end.

End EarlyExits.

Definition count_where {A} (f : A -> bool) (l : list A) : Z :=
  Z.of_nat (length (filter f l)).

(** The table without the fixes of one vessel. *)
Definition without (mmsi : Z) (df : DataFrame) : DataFrame :=
  {| rows := filter (fun r => negb (MMSI r =? mmsi)) (rows df);
     has_SOG := has_SOG df |}.

(** ** The verifier's answer, in the words of the specification *)

Definition survey_labels : list json :=
  [ JStr (py "LIKELY_SURVEY_PATTERN");
    JStr (py "POSSIBLE_SURVEY_PATTERN");
    JStr (py "UNLIKELY_SURVEY_PATTERN") ].

Definition ParsingError : json := JStr (py "PARSING_ERROR").

(** The expected structure: an object whose [classification] is one of the
    three labels and which has an [explanation]. *)
Definition expected_structure (v : json) : Prop :=
  exists members c e,
    v = JObj members
    /\ dict_lookup (py "classification") members = Some c
    /\ In c survey_labels
    /\ dict_lookup (py "explanation") members = Some (JStr e).

Definition interpretable (response : text) : Prop :=
  exists v, json_loads response = Ok v /\ expected_structure v.

(** A string literal of JSON: [s] between double quotes. *)
Definition quoted (s : string) : text := 34%N :: py s ++ [34%N].

(** The answer the prompt asks for. *)
Definition answer_with (label explanation : string) : text :=
  py "{" ++ quoted "classification" ++ py ": " ++ quoted label ++ py ", "
  ++ quoted "explanation" ++ py ": " ++ quoted explanation ++ py "}".

(** * The rest of the two scripts *)

(** ** DataLoader *)

(** One row as [pd.read_csv] returns it; an empty cell is [None].  The
    MMSI column is numeric, as [read_csv] makes it when no cell holds
    text: [astype(int)] then succeeds.  A column with text in it leads
    [vlm_processing.py] to [astype(str)], to identifiers that the integer
    [MMSI] of [Fix] does not hold. *)
Record RawRow := {
  raw_MMSI : option Q;
  raw_BaseDateTime : option text;
  raw_LAT : option Q;
  raw_LON : option Q;
  raw_SOG : option Q
}.

Record RawTable := {
  raw_rows : list RawRow;
  has_MMSI : bool;
  has_BaseDateTime : bool;
  has_LAT : bool;
  has_LON : bool;
  has_SOG_column : bool
}.

(** The two functions of pandas that read the outside world or parse. *)
Class Pandas := {
  (** [pd.read_csv(csv_path)]; it raises when the file is missing or
      cannot be parsed. *)
  read_csv : text -> result RawTable;
  (** [pd.to_datetime(..., errors='coerce')] on one cell: [None] is
      [NaT]. *)
  to_datetime : text -> option Z
}.

(** [pd.DataFrame()] *)
Definition empty_DataFrame : DataFrame := {| rows := []; has_SOG := false |}.

(** A table in the making: each row with its label in the index. *)
Definition labelled_rows := list (Z * RawRow).

(** The [RangeIndex] that [read_csv] gives the rows. *)
Definition labelled (rs : list RawRow) : labelled_rows :=
  combine (map Z.of_nat (seq 0 (length rs))) rs.

Definition notna {A} (o : option A) : bool :=
  match o with Some _ => true | None => false end.

(** [(df['LAT'] >= -90) & (df['LAT'] <= 90) & (df['LON'] >= -180) &
    (df['LON'] <= 180)]; a comparison with NaN is false. *)
Definition in_bounds (r : RawRow) : bool :=
  match raw_LAT r, raw_LON r with
  | Some lat, Some lon =>
      Qle_bool (-90) lat && Qle_bool lat 90
      && Qle_bool (-180) lon && Qle_bool lon 180
  | _, _ => false
  end.

Section Loader.
Context {Pd : Pandas}.

(** The timestamp of a row after [pd.to_datetime(..., errors='coerce')]. *)
Definition parsed_time (r : RawRow) : option Z :=
  match raw_BaseDateTime r with
  | Some s => to_datetime s
  | None => None
  end.

(** One cleaned row: [astype(int)] on the identifier, the parsed
    timestamp, and the label of the row as its [index]. *)
Definition to_Fix (with_time : bool) (ir : Z * RawRow) : list Fix :=
  let r := snd ir in
  match raw_MMSI r, raw_LAT r, raw_LON r with
  | Some m, Some lat, Some lon =>
      [ {| index := fst ir;
           MMSI := py_int m;
           BaseDateTime := if with_time then parsed_time r else None;
           LAT := lat; LON := lon; SOG := raw_SOG r |} ]
  | _, _, _ => []
  end.

(** [vlm_processing.load_ais_data(csv_path)]: required columns, timestamps
    parsed or set to [NaT], [dropna] on LAT, LON and MMSI, the bounds
    filter, [reset_index]; every exception gives the empty table. *)
Definition load_ais_data (csv_path : text) : DataFrame :=
  match read_csv csv_path with
  | Raise _ => empty_DataFrame
  | Ok df =>
      if negb (has_MMSI df && has_LAT df && has_LON df) then empty_DataFrame
      else
        let f := labelled (raw_rows df) in
        let f :=
          filter (fun ir => notna (raw_LAT (snd ir)) && notna (raw_LON (snd ir))
                            && notna (raw_MMSI (snd ir))) f in
        let f := filter (fun ir => in_bounds (snd ir)) f in
        {| rows := flat_map (to_Fix (has_BaseDateTime df)) f;
           has_SOG := has_SOG_column df |}
  end.

(** The order of [sort_values(by=['MMSI', 'BaseDateTime'])]. *)
Definition by_MMSI_BaseDateTime (a b : Fix) : bool :=
  (MMSI a <? MMSI b) || ((MMSI a =? MMSI b) && by_BaseDateTime a b).

(** [trajectory_processor.load_ais_data(csv_path)]: the timestamp is
    required and rows without one are dropped; the rows are sorted by
    vessel and time, and keep their labels. *)
Definition load_ais_data_tp (csv_path : text) : DataFrame :=
  match read_csv csv_path with
  | Raise _ => empty_DataFrame
  | Ok df =>
      if negb (has_MMSI df && has_BaseDateTime df && has_LAT df && has_LON df)
      then empty_DataFrame
      else
        let f := labelled (raw_rows df) in
        let f :=
          filter (fun ir => notna (parsed_time (snd ir))
                            && notna (raw_LAT (snd ir))
                            && notna (raw_LON (snd ir))
                            && notna (raw_MMSI (snd ir))) f in
        let f := filter (fun ir => in_bounds (snd ir)) f in
        {| rows := sort_values by_MMSI_BaseDateTime (flat_map (to_Fix true) f);
           has_SOG := has_SOG_column df |}
  end.

End Loader.

(** ** A table on disk for the concrete worlds *)

(** Timestamps written as a number of seconds. *)
Definition seconds_of_text (s : text) : option Z :=
  match s with
  | [] => None
  | _ =>
      fold_left
        (fun acc c =>
           match acc with
           | Some n =>
               if ((48 <=? c) && (c <=? 57))%N
               then Some (10 * n + Z.of_N (c - 48)) else None
           | None => None
           end)
        s (Some 0)
  end.

Definition raw (mmsi : Q) (t : string) (lat lon : Q) : RawRow :=
  {| raw_MMSI := Some mmsi; raw_BaseDateTime := Some (py t);
     raw_LAT := Some lat; raw_LON := Some lon; raw_SOG := Some 8%Q |}.

(** Six fixes of vessel 7, the third without a position, the fifth with a
    latitude of 95 degrees, the last two out of time order. *)
Definition demo_raw_table : RawTable :=
  {| raw_rows :=
       [ raw 7 "100" 10 20;
         raw 7 "200" 11 20;
         {| raw_MMSI := Some 7%Q; raw_BaseDateTime := Some (py "300");
            raw_LAT := None; raw_LON := None; raw_SOG := None |};
         raw 7 "400" 12 20;
         raw 7 "500" 95 20;
         raw 7 "700" 13 20;
         raw 7 "600" 14 20 ];
     has_MMSI := true; has_BaseDateTime := true; has_LAT := true;
     has_LON := true; has_SOG_column := true |}.

(** A disk that holds that table under [ais.csv] and nothing else. *)
Definition demo_pandas : Pandas :=
  {| read_csv := fun p =>
       if text_eqb p (py "ais.csv") then Ok demo_raw_table
       else Raise (Exn OSError (py "No such file or directory"));
     to_datetime := seconds_of_text |}.

(** The table of the concrete worlds with one more vessel, seen once. *)
Definition lonely_df : DataFrame :=
  {| rows := rows demo_df ++ [mk_fix 14 9 70 (9 # 100) (Some 8%Q)];
     has_SOG := true |}.

(** ** What the loop does with each vessel *)

Definition Classification_eqb (a b : Classification) : bool :=
  match a, b with
  | Other, Other | LikelyJitter, LikelyJitter
  | LikelyJitterNoSOG, LikelyJitterNoSOG
  | PotentialPattern, PotentialPattern
  | NoSignificantProximity, NoSignificantProximity => true
  | _, _ => false
  end.

Section Outcomes.
Context {Lib : Libraries}.

(** The classification the loop body computes for a trajectory, when it
    gets that far: the vessel's group is in the table and the projection
    is a non-empty line. *)
Definition classification_of (df : DataFrame) (th : Thresholds)
  (e : Z * LineString) : option Classification :=
  match get_group (rows df) (fst e) with
  | Raise _ => None
  | Ok g =>
      match project (snd e) with
      | Raise _ => None
      | Ok projected_line =>
          if is_empty projected_line then None
          else Some (classify (metrics_of df g (snd e) projected_line) th)
      end
  end.

Definition classified_as (cs : list Classification) (df : DataFrame)
  (th : Thresholds) (e : Z * LineString) : bool :=
  match classification_of df th e with
  | Some c => existsb (Classification_eqb c) cs
  | None => false
  end.

End Outcomes.

Definition PlotDir_eqb (a b : PlotDir) : bool :=
  match a, b with
  | base, base | jitter_dir, jitter_dir | pattern_dir, pattern_dir
  | no_prox_dir, no_prox_dir | likely_survey_dir, likely_survey_dir
  | possible_survey_dir, possible_survey_dir => true
  | _, _ => false
  end.

Definition in_dir (d : PlotDir) (f : PlotFile) : bool := PlotDir_eqb (fst f) d.

(** How the counters, the lists and the files of a run hang together. *)
Definition consistent (st : Run) : Prop :=
  plotted (counts st) = Z.of_nat (length (plots st))
  /\ pattern_vlm (counts st) = Z.of_nat (length (pattern_mmsis st))
  /\ likely_survey (counts st)
     = count_where (in_dir likely_survey_dir) (copies st)
  /\ possible_survey (counts st)
     = count_where (in_dir possible_survey_dir) (copies st)
  /\ map mmsi_of (pattern_info st)
     = map snd (filter (in_dir pattern_dir) (plots st))
  /\ (forall i, In i (pattern_info st) ->
        0 < prox_hits i /\ In (mmsi_of i) (pattern_mmsis st))
  /\ (forall f, In f (copies st) ->
        exists i, In i (pattern_info st) /\ mmsi_of i = snd f
          /\ ((fst f = likely_survey_dir
               /\ survey_classification i = JStr (py "LIKELY_SURVEY_PATTERN"))
              \/ (fst f = possible_survey_dir
                  /\ survey_classification i
                     = JStr (py "POSSIBLE_SURVEY_PATTERN")))).

(** ** ProjectionEngine: the zone *)

(** ['zone': int((lon + 180) / 6) + 1] *)
Definition utm_zone (lon : Q) : Z := py_int ((lon + 180) / 6) + 1.

(** ** Verifier: the characters of an answer *)





(** ** Metrics: one point taken into [bounds] *)

Definition bounds_step (b : Q * Q * Q * Q) (q : coord) : Q * Q * Q * Q :=
  let '(minx, miny, maxx, maxy) := b in
  (Qmin2 minx (fst q), Qmin2 miny (snd q),
   Qmax2 maxx (fst q), Qmax2 maxy (snd q)).

(** * Properties *)

(** ** Python values *)

Lemma text_eqb_eq a b : text_eqb a b = true <-> a = b.
Proof.
  unfold text_eqb. destruct (list_eq_dec N.eq_dec a b); split; congruence.
Qed.

Lemma text_eqb_refl a : text_eqb a a = true.
Proof. now apply text_eqb_eq. Qed.

Lemma Qltb_lt x y : Qltb x y = true <-> (x < y)%Q.
Proof.
  unfold Qltb. rewrite negb_true_iff, <- not_true_iff_false, Qle_bool_iff.
  split; [apply Qnot_le_lt | apply Qlt_not_le].
Qed.

Lemma Qltb_eq_false x y : (x == y)%Q -> Qltb x y = false.
Proof.
  intros E. apply not_true_iff_false. rewrite Qltb_lt, E.
  apply Qlt_irrefl.
Qed.

Lemma in_range a b i : In i (range a b) <-> (a <= i < b)%nat.
Proof. unfold range. rewrite in_seq. lia. Qed.

(** ** ProximityAnalyzer *)

(** [int(total_points * 0.1)] is [floor(total_points / 10)]. *)
Lemma adjacency_window_floor n :
  adjacency_window n = Z.max 2 (Z.of_nat n / 10).
Proof.
  unfold adjacency_window, py_int. cbn [Qnum Qden Qmult inject_Z].
  rewrite Z.mul_1_r. change (Z.pos (1 * 10)) with 10.
  now rewrite Z.quot_div_nonneg by lia.
Qed.

(** Up to 4000 points the binary64 product gives the same window. *)
Example adjacency_window_binary64_agrees :
  forallb (fun n => adjacency_window_binary64 n =? adjacency_window n)
    (seq 0 4000) = true.
Proof. vm_compute. reflexivity. Qed.

Section ScanCount.
Context {Lib : Libraries}.
Variables (coords : list coord) (t : Q) (w : Z).

Lemma inner_loop_count i js h :
  fold_left (scan_j coords t w i) js h
  = h + Z.of_nat (length (filter (counted coords t w i) js)).
Proof.
  revert h. induction js as [|j js IH]; intros h; cbn [fold_left filter].
  - cbn. lia.
  - rewrite IH. unfold scan_j, counted.
    destruct (Z.abs (Z.of_nat i - Z.of_nat j) <=? w); cbn [negb andb length].
    + lia.
    + destruct (Qltb _ t); cbn [length]; lia.
Qed.

Lemma outer_loop_count n idx h :
  fold_left
    (fun hit_count i =>
       fold_left (scan_j coords t w i) (range (i + 1) n) hit_count) idx h
  = h + Z.of_nat
          (length
             (flat_map
                (fun i => map (pair i)
                            (filter (counted coords t w i) (range (i + 1) n)))
                idx)).
Proof.
  revert h. induction idx as [|i idx IH]; intros h; cbn [fold_left flat_map].
  - cbn. lia.
  - rewrite IH, inner_loop_count, length_app, length_map. lia.
Qed.

End ScanCount.

Lemma NoDup_indexed_pairs (g : nat -> list nat) (l : list nat) :
  NoDup l -> (forall i, NoDup (g i)) ->
  NoDup (flat_map (fun i => map (pair i) (g i)) l).
Proof.
  intros Hl Hg. induction Hl as [|i l Hi Hl IH]; cbn [flat_map].
  - constructor.
  - apply NoDup_app; [| exact IH |].
    + apply NoDup_map_NoDup_ForallPairs; [| apply Hg].
      intros x y _ _ E. now inversion E.
    + intros [a b] Ha Hb. apply in_map_iff in Ha as (x & E & _).
      inversion E; subst a b. apply in_flat_map in Hb as (k & Hk & Hb).
      apply in_map_iff in Hb as (y & E' & _). inversion E'; subst k y.
      contradiction.
Qed.

Section ProximityProperties.
Context {Lib : Libraries}.

Lemma scan_hit_pairs coords t :
  scan coords t = Z.of_nat (length (hit_pairs coords t)).
Proof.
  unfold scan, hit_pairs. cbv zeta. now rewrite outer_loop_count.
Qed.

Lemma hit_pairs_NoDup coords t : NoDup (hit_pairs coords t).
Proof.
  unfold hit_pairs. cbv zeta.
  apply (NoDup_indexed_pairs
           (fun i => filter (counted coords t _ i) (range (i + 1) _))).
  - apply seq_NoDup.
  - intros i. apply NoDup_filter, seq_NoDup.
Qed.

Lemma in_hit_pairs coords t i j :
  In (i, j) (hit_pairs coords t) <->
  (i < j < length coords)%nat
  /\ adjacency_window (length coords) < Z.of_nat j - Z.of_nat i
  /\ (euclidean (nth i coords (0, 0)%Q) (nth j coords (0, 0)%Q) < t)%Q.
Proof.
  unfold hit_pairs. cbv zeta. rewrite in_flat_map. split.
  - intros (k & Hk & H). apply in_map_iff in H as (y & E & H).
    inversion E; subst k y. apply filter_In in H as [Hj H].
    apply in_range in Hk, Hj. unfold counted in H.
    apply andb_true_iff in H as [Hw Hd]. apply Qltb_lt in Hd.
    apply negb_true_iff, Z.leb_gt in Hw.
    split; [lia |]. split; [| exact Hd].
    rewrite Z.abs_neq in Hw by lia. lia.
  - intros (Hij & Hw & Hd). exists i. split; [apply in_range; lia |].
    apply in_map, filter_In. split; [apply in_range; lia |].
    unfold counted. apply andb_true_iff. split; [| now apply Qltb_lt].
    apply negb_true_iff, Z.leb_gt. rewrite Z.abs_neq by lia. lia.
Qed.

Lemma scan_nonneg coords t : 0 <= scan coords t.
Proof. rewrite scan_hit_pairs. lia. Qed.

(** The run of [count_self_proximity_hits] that reaches the loops. *)
Lemma count_reaches_scan trajectory projected t :
  (5 <= length trajectory)%nat ->
  project trajectory = Ok projected ->
  (5 <= length projected)%nat ->
  count_self_proximity_hits (Some trajectory) t = scan projected t.
Proof.
  intros Ht Hp Hn. unfold count_self_proximity_hits, count_body.
  rewrite Hp. cbn [bind].
  destruct trajectory as [|p tr]; [cbn in Ht; lia |]. cbn [is_empty].
  destruct projected as [|q pr]; [cbn in Hn; lia |]. cbn [is_empty].
  apply Nat.ltb_ge in Ht, Hn. now rewrite Ht, Hn.
Qed.

(** C1. For a trajectory whose projection has N >= 5 points and for every
    threshold t, [count_self_proximity_hits] returns the number of index
    pairs (i, j) with i < j < N and j - i > W, W = max(2, floor(N / 10)),
    whose projected points are at a distance strictly less than t; a pair at
    distance exactly t is not among them. *)
Theorem proximity_hits_count (trajectory projected : LineString) (t : Q) :
  (5 <= length trajectory)%nat ->
  project trajectory = Ok projected ->
  (5 <= length projected)%nat ->
  let N := length projected in
  let W := Z.max 2 (Z.of_nat N / 10) in
  let dist i j :=
    euclidean (nth i projected (0, 0)%Q) (nth j projected (0, 0)%Q) in
  exists pairs : list (nat * nat),
    NoDup pairs
    /\ (forall i j,
          In (i, j) pairs <->
          (i < j < N)%nat /\ W < Z.of_nat j - Z.of_nat i /\ (dist i j < t)%Q)
    /\ (forall i j, (dist i j == t)%Q -> ~ In (i, j) pairs)
    /\ count_self_proximity_hits (Some trajectory) t
       = Z.of_nat (length pairs).
Proof.
  intros Ht Hp Hn N W dist. exists (hit_pairs projected t).
  assert (Hin : forall i j,
             In (i, j) (hit_pairs projected t) <->
             (i < j < N)%nat /\ W < Z.of_nat j - Z.of_nat i
             /\ (dist i j < t)%Q).
  { intros i j. rewrite in_hit_pairs, adjacency_window_floor. reflexivity. }
  split; [apply hit_pairs_NoDup |]. split; [exact Hin |]. split.
  - intros i j E H. apply Hin in H as (_ & _ & H). rewrite E in H.
    now apply Qlt_irrefl in H.
  - rewrite (count_reaches_scan _ projected) by assumption.
    apply scan_hit_pairs.
Qed.

End ProximityProperties.

(** C1 at the track of vessel 111. *)
Lemma proximity_hits_count_witness :
  exists pairs : list (nat * nat),
    NoDup pairs
    /\ (forall i j,
          In (i, j) pairs <->
          (i < j < 6)%nat /\ 2 < Z.of_nat j - Z.of_nat i
          /\ (distance_on_parallel (nth i (to_metres track_111) (0, 0)%Q)
                (nth j (to_metres track_111) (0, 0)%Q) < 200)%Q)
    /\ (forall i j,
          (distance_on_parallel (nth i (to_metres track_111) (0, 0)%Q)
             (nth j (to_metres track_111) (0, 0)%Q) == 200)%Q ->
          ~ In (i, j) pairs)
    /\ @count_self_proximity_hits demo_libraries (Some track_111) 200
       = Z.of_nat (length pairs).
Proof.
  apply (@proximity_hits_count demo_libraries track_111 (to_metres track_111)
           200).
  - cbn. lia.
  - reflexivity.
  - cbn. lia.
Defined.

Example hits_of_track_111 :
  @count_self_proximity_hits demo_libraries (Some track_111) 200 = 2.
Proof. reflexivity. Qed.

Section TotalityProperties.
Context {Lib : Libraries}.

Lemma count_nonneg trajectory t : 0 <= count_self_proximity_hits trajectory t.
Proof.
  unfold count_self_proximity_hits. cbv zeta.
  destruct trajectory as [traj|]; [| lia].
  destruct (is_empty traj); [lia |].
  destruct (length traj <? 5)%nat; [lia |].
  unfold count_body. destruct (project traj) as [p|e]; cbn [bind]; [| lia].
  destruct (is_empty p); [lia |]. destruct (length p <? 5)%nat; [lia |].
  apply scan_nonneg.
Qed.

Lemma count_short_trajectory traj t :
  (length traj < 5)%nat -> count_self_proximity_hits (Some traj) t = 0.
Proof.
  intros H. unfold count_self_proximity_hits. cbv zeta.
  destruct (is_empty traj); [reflexivity |].
  apply Nat.ltb_lt in H. now rewrite H.
Qed.

Lemma count_projection_raises traj e t :
  project traj = Raise e -> count_self_proximity_hits (Some traj) t = 0.
Proof.
  intros H. unfold count_self_proximity_hits. cbv zeta.
  destruct (is_empty traj); [reflexivity |].
  destruct (length traj <? 5)%nat; [reflexivity |].
  unfold count_body. now rewrite H.
Qed.

Lemma count_short_projection traj projected_line t :
  project traj = Ok projected_line -> (length projected_line < 5)%nat ->
  count_self_proximity_hits (Some traj) t = 0.
Proof.
  intros H Hp. unfold count_self_proximity_hits. cbv zeta.
  destruct (is_empty traj); [reflexivity |].
  destruct (length traj <? 5)%nat; [reflexivity |].
  unfold count_body. rewrite H. cbn [bind].
  destruct (is_empty projected_line); [reflexivity |].
  apply Nat.ltb_lt in Hp. now rewrite Hp.
Qed.

(** C9. [count_self_proximity_hits] returns a non-negative integer on every
    input, and 0 on every path but the one that reaches the loops: [None],
    an empty or short trajectory, a projection that raises, an empty or
    short projected line. *)
Theorem proximity_hits_total (trajectory : option LineString) (t : Q) :
  0 <= count_self_proximity_hits trajectory t
  /\ (trajectory = None -> count_self_proximity_hits trajectory t = 0)
  /\ (forall traj, trajectory = Some traj -> (length traj < 5)%nat ->
      count_self_proximity_hits trajectory t = 0)
  /\ (forall traj e, trajectory = Some traj -> project traj = Raise e ->
      count_self_proximity_hits trajectory t = 0)
  /\ (forall traj projected_line, trajectory = Some traj ->
      project traj = Ok projected_line -> (length projected_line < 5)%nat ->
      count_self_proximity_hits trajectory t = 0).
Proof.
  split; [apply count_nonneg |]. split; [now intros -> |].
  split; [| split].
  - intros traj ->. apply count_short_trajectory.
  - intros traj e ->. apply count_projection_raises.
  - intros traj p ->. apply count_short_projection.
Qed.

End TotalityProperties.

(** C9 where the reprojection raises. *)
Lemma proximity_hits_total_witness :
  @count_self_proximity_hits utm_fails_libraries (Some track_111) 200 = 0.
Proof.
  apply (proj1 (proj2 (proj2 (proj2
           (@proximity_hits_total utm_fails_libraries (Some track_111) 200)))))
    with (traj := track_111)
         (e := Exn ProjError (py "Invalid projection")); reflexivity.
Defined.

(** ** Classifier *)

Lemma classify_jitter_inv m th :
  classify m th = LikelyJitter ->
  exists s, avg_sog m = Some s /\ Qltb s (speed th) = true
            /\ small_and_dense m th = true.
Proof.
  unfold classify. destruct (avg_sog m) as [s|].
  - destruct (Qltb s (speed th)) eqn:Es; cbn [andb].
    + destruct (small_and_dense m th) eqn:Ed; cbn [negb].
      * intros _. now exists s.
      * destruct (0 <? proximity_hits m); discriminate.
    + cbn [negb]. destruct (0 <? proximity_hits m); discriminate.
  - destruct (small_and_dense m th); cbn [negb]; [discriminate |].
    destruct (0 <? proximity_hits m); discriminate.
Qed.

Lemma classify_jitter_no_sog_inv m th :
  classify m th = LikelyJitterNoSOG ->
  avg_sog m = None /\ small_and_dense m th = true.
Proof.
  unfold classify. destruct (avg_sog m) as [s|].
  - destruct (Qltb s (speed th) && small_and_dense m th); cbn [negb];
      [discriminate |].
    destruct (0 <? proximity_hits m); discriminate.
  - destruct (small_and_dense m th); cbn [negb]; [now split |].
    destruct (0 <? proximity_hits m); discriminate.
Qed.

Lemma small_and_dense_strict m th :
  small_and_dense m th = true ->
  (bbox_width_m m < size th)%Q /\ (bbox_height_m m < size th)%Q
  /\ hits th < proximity_hits m.
Proof.
  unfold small_and_dense. intros H.
  apply andb_true_iff in H as [H Hh]. apply andb_true_iff in H as [Hw Hs].
  apply Qltb_lt in Hw, Hs. apply Z.ltb_lt in Hh. now repeat split.
Qed.

Lemma classify_not_other m th : classify m th <> Other.
Proof.
  unfold classify. destruct (avg_sog m) as [s|].
  - destruct (Qltb s (speed th) && small_and_dense m th); cbn [negb];
      [discriminate |].
    destruct (0 <? proximity_hits m); discriminate.
  - destruct (small_and_dense m th); cbn [negb]; [discriminate |].
    destruct (0 <? proximity_hits m); discriminate.
Qed.

Lemma classify_tp_jitter_inv m th :
  classify_tp m th = LikelyJitter ->
  exists s, avg_sog m = Some s /\ Qltb s (speed th) = true
            /\ small_and_dense m th = true.
Proof.
  unfold classify_tp. destruct (avg_sog m) as [s|].
  - destruct (Qltb s (speed th)) eqn:E1, (small_and_dense m th) eqn:E2;
      cbn [andb negb]; try (destruct (0 <? proximity_hits m); discriminate).
    intros _. now exists s.
  - cbn [negb]. destruct (0 <? proximity_hits m); discriminate.
Qed.

(** C2, as amended. In [vlm_processing.py], [classify] is the first
    matching branch of the four, in their order; it always yields one of
    the four classifications; and every threshold comparison is strict: a
    speed equal to the speed threshold never gives LikelyJitter, and a
    bounding box side equal to the size threshold or a hit count equal to
    the hits threshold never gives either jitter classification.  In
    [trajectory_processor.py], [classify_tp] is the first matching branch
    of three: it has no branch for a missing speed and never yields
    LikelyJitterNoSpeedData; its comparisons are strict in the same way. *)
Theorem classifier_first_match_strict (m : Metrics) (th : Thresholds) :
  first_match (branches m th) = Some (classify m th)
  /\ classify m th <> Other
  /\ (forall s, avg_sog m = Some s -> (s == speed th)%Q ->
      classify m th <> LikelyJitter)
  /\ ((bbox_width_m m == size th)%Q \/ (bbox_height_m m == size th)%Q
      \/ proximity_hits m = hits th ->
      classify m th <> LikelyJitter /\ classify m th <> LikelyJitterNoSOG)
  /\ (proximity_hits m = 0 -> classify m th <> PotentialPattern)
  /\ first_match (branches_tp m th) = Some (classify_tp m th)
  /\ classify_tp m th <> Other
  /\ classify_tp m th <> LikelyJitterNoSOG
  /\ (forall s, avg_sog m = Some s -> (s == speed th)%Q ->
      classify_tp m th <> LikelyJitter)
  /\ ((bbox_width_m m == size th)%Q \/ (bbox_height_m m == size th)%Q
      \/ proximity_hits m = hits th ->
      classify_tp m th <> LikelyJitter)
  /\ (proximity_hits m = 0 -> classify_tp m th <> PotentialPattern).
Proof.
  assert (Hstrict : (bbox_width_m m == size th)%Q
                    \/ (bbox_height_m m == size th)%Q
                    \/ proximity_hits m = hits th ->
                    small_and_dense m th = false).
  { intros E. apply not_true_iff_false. intros D.
    apply small_and_dense_strict in D as (Hw & Hh & Hp).
    destruct E as [E | [E | E]].
    - rewrite E in Hw. now apply Qlt_irrefl in Hw.
    - rewrite E in Hh. now apply Qlt_irrefl in Hh.
    - lia. }
  repeat match goal with |- _ /\ _ => split end.
  - unfold first_match, branches, classify, small_and_dense.
    destruct (avg_sog m) as [s|]; cbn [find fst snd].
    + destruct (Qltb s (speed th)), (Qltb (bbox_width_m m) (size th)),
        (Qltb (bbox_height_m m) (size th)), (hits th <? proximity_hits m),
        (0 <? proximity_hits m); reflexivity.
    + destruct (Qltb (bbox_width_m m) (size th)),
        (Qltb (bbox_height_m m) (size th)), (hits th <? proximity_hits m),
        (0 <? proximity_hits m); reflexivity.
  - apply classify_not_other.
  - intros s Hs E H. apply classify_jitter_inv in H as (s' & Hs' & Hlt & _).
    rewrite Hs in Hs'. injection Hs' as <-.
    now rewrite (Qltb_eq_false _ _ E) in Hlt.
  - intros E. split; intros H.
    + apply classify_jitter_inv in H as (_ & _ & _ & H).
      rewrite (Hstrict E) in H. discriminate.
    + apply classify_jitter_no_sog_inv in H as [_ H].
      rewrite (Hstrict E) in H. discriminate.
  - intros E. unfold classify. rewrite E.
    destruct (avg_sog m) as [s|].
    + destruct (Qltb s (speed th) && small_and_dense m th); cbn;
        discriminate.
    + destruct (small_and_dense m th); cbn; discriminate.
  - unfold first_match, branches_tp, classify_tp, small_and_dense.
    destruct (avg_sog m) as [s|]; cbn [find fst snd].
    + destruct (Qltb s (speed th)), (Qltb (bbox_width_m m) (size th)),
        (Qltb (bbox_height_m m) (size th)), (hits th <? proximity_hits m),
        (0 <? proximity_hits m); reflexivity.
    + destruct (0 <? proximity_hits m); reflexivity.
  - unfold classify_tp. destruct (avg_sog m) as [s|].
    + destruct (Qltb s (speed th) && small_and_dense m th); cbn [negb];
        [discriminate |].
      destruct (0 <? proximity_hits m); discriminate.
    + cbn [negb]. destruct (0 <? proximity_hits m); discriminate.
  - unfold classify_tp. destruct (avg_sog m) as [s|].
    + destruct (Qltb s (speed th) && small_and_dense m th); cbn [negb];
        [discriminate |].
      destruct (0 <? proximity_hits m); discriminate.
    + cbn [negb]. destruct (0 <? proximity_hits m); discriminate.
  - intros s Hs E H.
    apply classify_tp_jitter_inv in H as (s' & Hs' & Hlt & _).
    rewrite Hs in Hs'. injection Hs' as <-.
    now rewrite (Qltb_eq_false _ _ E) in Hlt.
  - intros E H. apply classify_tp_jitter_inv in H as (_ & _ & _ & H).
    rewrite (Hstrict E) in H. discriminate.
  - intros E. unfold classify_tp. rewrite E.
    destruct (avg_sog m) as [s|].
    + destruct (Qltb s (speed th) && small_and_dense m th); cbn;
        discriminate.
    + cbn. discriminate.
Qed.

(** C2 as stated fails in [trajectory_processor.py]: without a speed, a
    track of 100 m by 100 m with 60 hits matches the second of the four
    branches, and the script says potential pattern. *)
Lemma classifier_first_match_counterexample :
  let m := {| avg_sog := None; length_km := 1; bbox_width_m := 100;
              bbox_height_m := 100; proximity_hits := 60 |} in
  first_match (branches m THRESHOLDS) = Some LikelyJitterNoSOG
  /\ classify_tp m THRESHOLDS = PotentialPattern.
Proof. split; reflexivity. Qed.

(** C2 at a speed equal to the default threshold of 1.5 knots: a small,
    dense track that is not jitter. *)
Lemma classifier_first_match_strict_witness :
  classify {| avg_sog := Some (3 # 2); length_km := 1; bbox_width_m := 100;
              bbox_height_m := 100; proximity_hits := 60 |} THRESHOLDS
  <> LikelyJitter.
Proof.
  apply (proj1 (proj2 (proj2
           (classifier_first_match_strict
              {| avg_sog := Some (3 # 2); length_km := 1; bbox_width_m := 100;
                 bbox_height_m := 100; proximity_hits := 60 |} THRESHOLDS)))
           (3 # 2)); reflexivity.
Defined.

Example scenario_A :
  classify {| avg_sog := Some (1 # 2); length_km := 1; bbox_width_m := 100;
              bbox_height_m := 100; proximity_hits := 60 |} THRESHOLDS
  = LikelyJitter.
Proof. reflexivity. Qed.

Example scenario_B :
  classify {| avg_sog := Some 8%Q; length_km := 10; bbox_width_m := 2000;
              bbox_height_m := 200; proximity_hits := 30 |} THRESHOLDS
  = PotentialPattern.
Proof. reflexivity. Qed.

(** The earlier script has no branch for a missing speed: it agrees with
    [classify] except where that gives LikelyJitterNoSOG. *)
Lemma classify_tp_agrees m th :
  classify m th <> LikelyJitterNoSOG -> classify_tp m th = classify m th.
Proof.
  unfold classify, classify_tp. destruct (avg_sog m); [reflexivity |].
  destruct (small_and_dense m th); cbn [negb]; [congruence | reflexivity].
Qed.

(** ** TrajectoryBuilder *)

Lemma mk_LineString_ok pts l : mk_LineString pts = Ok l -> l = pts.
Proof.
  destruct pts as [|p [|q r]]; cbn; intros H; now inversion H.
Qed.

Lemma build_trajectories_ok column min_points groups acc res :
  build_trajectories column min_points groups acc = Ok res ->
  res = acc ++ map (fun g => (fst g, map geometry (sort_values column (snd g))))
                 (filter (fun g => min_points <=? Z.of_nat (length (snd g)))
                    groups).
Proof.
  revert acc. induction groups as [|[k g] groups IH]; intros acc;
    cbn [build_trajectories filter fst snd].
  - intros H. inversion H. now rewrite app_nil_r.
  - destruct (min_points <=? Z.of_nat (length g)).
    + destruct (mk_LineString (map geometry (sort_values column g))) as [l|e]
        eqn:E; cbn [bind]; [| discriminate].
      intros H. apply IH in H. apply mk_LineString_ok in E. subst l.
      rewrite H, <- app_assoc. reflexivity.
    + apply IH.
Qed.

Lemma in_groupby rs k g : In (k, g) (groupby rs) -> g = group_of rs k.
Proof.
  unfold groupby. intros H. apply in_map_iff in H as (k' & E & _).
  now inversion E.
Qed.

Lemma in_built_trajectories column min_points rs res mmsi traj :
  build_trajectories column min_points (groupby rs) [] = Ok res ->
  In (mmsi, traj) res ->
  min_points <= Z.of_nat (length (group_of rs mmsi))
  /\ traj = map geometry (sort_values column (group_of rs mmsi)).
Proof.
  intros H Hin. apply build_trajectories_ok in H. subst res.
  cbn [app] in Hin. apply in_map_iff in Hin as ([k g] & E & Hg).
  apply filter_In in Hg as [Hg Hlen]. cbn [fst snd] in *.
  inversion E; subst k traj. apply in_groupby in Hg. subst g.
  apply Z.leb_le in Hlen. now split.
Qed.

Lemma in_create_trajectories df min_points mmsi traj :
  In (mmsi, traj) (create_trajectories df min_points) ->
  min_points <= Z.of_nat (length (group_of (rows df) mmsi))
  /\ traj = map geometry (sort_values by_index (group_of (rows df) mmsi)).
Proof.
  unfold create_trajectories. destruct (empty df); [intros [] |].
  destruct (build_trajectories _ _ _ _) eqn:E; [| intros []].
  now apply in_built_trajectories.
Qed.

Lemma in_create_trajectories_tp df min_points mmsi traj :
  In (mmsi, traj) (create_trajectories_tp df min_points) ->
  min_points <= Z.of_nat (length (group_of (rows df) mmsi))
  /\ traj = map geometry (sort_values by_BaseDateTime
                           (group_of (rows df) mmsi)).
Proof.
  unfold create_trajectories_tp. destruct (empty df); [intros [] |].
  destruct (build_trajectories _ _ _ _) eqn:E; [| intros []].
  now apply in_built_trajectories.
Qed.

(** [sort_values] returns a sorted rearrangement of its argument. *)
Lemma insert_by_perm le r l : Permutation (insert_by le r l) (r :: l).
Proof.
  induction l as [|x l IH]; cbn; [reflexivity |].
  destruct (le r x); [reflexivity |].
  rewrite IH. apply perm_swap.
Qed.

Lemma sort_values_perm le l : Permutation (sort_values le l) l.
Proof.
  induction l as [|r l IH]; [reflexivity |].
  change (Permutation (insert_by le r (sort_values le l)) (r :: l)).
  now rewrite insert_by_perm, IH.
Qed.

Section Sorting.
Variable le : Fix -> Fix -> bool.
Hypothesis le_total : forall a b, le a b = true \/ le b a = true.
Hypothesis le_trans :
  forall a b c, le a b = true -> le b c = true -> le a c = true.

Lemma insert_by_sorted r l :
  StronglySorted (fun a b => le a b = true) l ->
  StronglySorted (fun a b => le a b = true) (insert_by le r l).
Proof.
  induction 1 as [|x l Hs IH Hx]; cbn; [repeat constructor |].
  destruct (le r x) eqn:E.
  - constructor; [now constructor |].
    constructor; [exact E |].
    eapply Forall_impl; [| exact Hx]. cbn. intros y. now apply le_trans.
  - constructor; [exact IH |].
    apply (Permutation_Forall (x := r :: l));
      [symmetry; apply insert_by_perm |].
    constructor; [| exact Hx].
    destruct (le_total r x) as [H | H]; [congruence | exact H].
Qed.

Lemma sort_values_sorted l :
  StronglySorted (fun a b => le a b = true) (sort_values le l).
Proof.
  induction l as [|r l IH]; [constructor |].
  now apply (insert_by_sorted r).
Qed.

End Sorting.

(** On a list already in order it changes nothing. *)
Lemma sort_values_id le l :
  StronglySorted (fun a b => le a b = true) l -> sort_values le l = l.
Proof.
  induction 1 as [|x l Hs IH Hx]; [reflexivity |].
  change (insert_by le x (sort_values le l) = x :: l).
  rewrite IH. destruct l as [|y l]; [reflexivity |]. cbn.
  inversion Hx as [|? ? Hy _]; subst. now rewrite Hy.
Qed.

Lemma by_index_total a b : by_index a b = true \/ by_index b a = true.
Proof. unfold by_index. rewrite !Z.leb_le. lia. Qed.

Lemma by_index_trans a b c :
  by_index a b = true -> by_index b c = true -> by_index a c = true.
Proof. unfold by_index. rewrite !Z.leb_le. lia. Qed.

Lemma by_BaseDateTime_total a b :
  by_BaseDateTime a b = true \/ by_BaseDateTime b a = true.
Proof.
  unfold by_BaseDateTime.
  destruct (BaseDateTime a), (BaseDateTime b); rewrite ?Z.leb_le; auto; lia.
Qed.

Lemma by_BaseDateTime_trans a b c :
  by_BaseDateTime a b = true -> by_BaseDateTime b c = true ->
  by_BaseDateTime a c = true.
Proof.
  unfold by_BaseDateTime.
  destruct (BaseDateTime a), (BaseDateTime b), (BaseDateTime c);
    rewrite ?Z.leb_le; try congruence; lia.
Qed.

Lemma sort_values_ordered_by le group :
  (forall a b, le a b = true \/ le b a = true) ->
  (forall a b c, le a b = true -> le b c = true -> le a c = true) ->
  ordered_by le group (map geometry (sort_values le group)).
Proof.
  intros Ht Hr. exists (sort_values le group).
  split; [apply sort_values_perm |].
  split; [now apply sort_values_sorted | reflexivity].
Qed.

Lemma strongly_sorted_impl {A} (R R' : A -> A -> Prop) l :
  (forall a b, R a b -> R' a b) -> StronglySorted R l -> StronglySorted R' l.
Proof.
  intros H. induction 1 as [|x l Hs IH Hx]; constructor; [exact IH |].
  eapply Forall_impl; [| exact Hx]. apply H.
Qed.

Lemma filter_strongly_sorted {A} (R : A -> A -> Prop) f l :
  StronglySorted R l -> StronglySorted R (filter f l).
Proof.
  induction 1 as [|x l Hs IH Hx]; cbn; [constructor |].
  destruct (f x); [| exact IH]. constructor; [exact IH |].
  apply Forall_forall. intros y Hy. apply filter_In in Hy as [Hy _].
  revert y Hy. now apply Forall_forall.
Qed.

(** C5, as amended. Every trajectory that [vlm_processing.py] emits holds
    the points of its vessel's group ordered by the ['index'] column,
    whether or not the fixes carry timestamps: where that column grows
    along the table, as the loader leaves it, this is the order of
    ingestion.  Every trajectory that [trajectory_processor.py] emits holds
    them ordered by timestamp. *)
Theorem trajectory_order (df : DataFrame) (min_points mmsi : Z)
  (traj : LineString) :
  (In (mmsi, traj) (create_trajectories df min_points) ->
   ordered_by by_index (group_of (rows df) mmsi) traj
   /\ (StronglySorted (fun a b => index a <= index b) (rows df) ->
       traj = by_ingestion df mmsi))
  /\ (In (mmsi, traj) (create_trajectories_tp df min_points) ->
      ordered_by by_BaseDateTime (group_of (rows df) mmsi) traj).
Proof.
  split.
  - intros H. apply in_create_trajectories in H as [_ ->]. split.
    + apply sort_values_ordered_by;
        [apply by_index_total | apply by_index_trans].
    + intros Hs. unfold by_ingestion. rewrite sort_values_id; [reflexivity |].
      apply filter_strongly_sorted.
      eapply strongly_sorted_impl; [| exact Hs].
      intros a b Hab. now apply Z.leb_le.
  - intros H. apply in_create_trajectories_tp in H as [_ ->].
    apply sort_values_ordered_by;
      [apply by_BaseDateTime_total | apply by_BaseDateTime_trans].
Qed.

Lemma backwards_df_index_increasing :
  StronglySorted (fun a b => index a <= index b) (rows backwards_df).
Proof.
  repeat (constructor; [| repeat (constructor; [cbn; lia |]); constructor]).
  constructor.
Qed.

(** C5 as amended, at a group whose timestamps run backwards. *)
Lemma trajectory_order_witness : track_222 = by_ingestion backwards_df 7.
Proof.
  apply (proj1 (trajectory_order backwards_df 5 7 track_222)).
  - cbn. left. reflexivity.
  - exact backwards_df_index_increasing.
Defined.

(** C5 as stated fails: all five fixes of vessel 7 carry a timestamp, and
    the emitted trajectory is not ordered by timestamp. *)
Lemma trajectory_order_counterexample :
  timestamps_present backwards_df 7
  /\ In (7, track_222) (create_trajectories backwards_df 5)
  /\ track_222 <> by_timestamp backwards_df 7
  /\ ~ ordered_by by_BaseDateTime (group_of (rows backwards_df) 7) track_222.
Proof.
  split; [| split; [| split]].
  - intros r Hr. cbn in Hr.
    repeat (destruct Hr as [<- | Hr]; [discriminate |]). destruct Hr.
  - cbn. left. reflexivity.
  - vm_compute. discriminate.
  - intros (g & Hperm & Hsorted & Hg).
    destruct g as [|a [|b g]]; try discriminate.
    assert (Ha : In a (group_of (rows backwards_df) 7))
      by (apply (Permutation_in _ Hperm); now left).
    assert (Hb : In b (group_of (rows backwards_df) 7))
      by (apply (Permutation_in _ Hperm); right; now left).
    inversion Hsorted as [|? ? _ Hall]; subst.
    inversion Hall as [|? ? Hab _]; subst.
    assert (Hga : nth 0 track_222 (0, 0)%Q = geometry a)
      by (rewrite Hg; reflexivity).
    assert (Hgb : nth 1 track_222 (0, 0)%Q = geometry b)
      by (rewrite Hg; reflexivity).
    cbn in Ha, Hb.
    destruct Ha as [<- | [<- | [<- | [<- | [<- | []]]]]];
      try (vm_compute in Hga; discriminate Hga).
    destruct Hb as [<- | [<- | [<- | [<- | [<- | []]]]]];
      first [ vm_compute in Hgb; discriminate Hgb
            | vm_compute in Hab; discriminate Hab ].
Qed.

(** ** The per-vessel loop *)

(** Case analysis on a scrutinee of the goal that holds no other. *)
Ltac split_match :=
  match goal with
  | |- context [match ?x with _ => _ end] =>
      lazymatch x with
      | context [match _ with _ => _ end] => fail
      | _ => destruct x eqn:?
      end
  end.

Ltac body_cases :=
  unfold vessel_body, vessel_body_tp, verify, count_classification;
  repeat split_match.

Section LoopProperties.
Context {Lib : Libraries} {Srv : Services}.

(** The body names no vessel but its own. *)
Lemma vessel_body_mentions df th mmsi traj st x :
  In x (mentions (fst (vessel_body df th mmsi traj st))) ->
  x = mmsi \/ In x (mentions st).
Proof.
  unfold mentions. body_cases; cbn;
    rewrite ?map_app, ?in_app_iff; cbn; rewrite ?in_app_iff;
    intuition auto.
Qed.

Lemma iteration_mentions df th st e x :
  In x (mentions (iteration (vessel_body df th) st e)) ->
  x = fst e \/ In x (mentions st).
Proof.
  unfold iteration.
  pose proof (vessel_body_mentions df th (fst e) (snd e) st x) as H.
  destruct (vessel_body df th (fst e) (snd e) st) as [st' s].
  cbn [fst] in H. destruct s; exact H.
Qed.

Lemma loop_mentions df th trajectories st x :
  In x (mentions (fold_left (iteration (vessel_body df th)) trajectories st)) ->
  In x (map fst trajectories) \/ In x (mentions st).
Proof.
  revert st. induction trajectories as [|e l IH]; intros st; cbn [fold_left].
  - now right.
  - intros H. apply IH in H as [H | H]; [left; now right |].
    apply iteration_mentions in H as [-> | H]; [left; now left | now right].
Qed.

(** What the body does to the counters: it never touches [processed], and
    it adds at most one to the classification counters. *)
Lemma vessel_body_counts df th mmsi traj st :
  let r := vessel_body df th mmsi traj st in
  processed (counts (fst r)) = processed (counts st)
  /\ (classified (counts (fst r)) = classified (counts st)
      \/ classified (counts (fst r)) = classified (counts st) + 1).
Proof.
  unfold classified. body_cases; cbn; lia.
Qed.

(** The body jumps to the next vessel exactly on an empty projection, and
    then it has changed nothing. *)
Lemma vessel_body_continue df th mmsi traj st :
  snd (vessel_body df th mmsi traj st) = Continue <->
  (exists g, get_group (rows df) mmsi = Ok g) /\ project traj = Ok [].
Proof.
  unfold vessel_body.
  destruct (get_group (rows df) mmsi) as [g|e]; cbn [snd].
  - destruct (project traj) as [[|p pl]|e] eqn:Ep; cbn [is_empty snd].
    + split; [intros _; split; [now exists g | reflexivity] | reflexivity].
    + split; [| intros [_ H]; discriminate].
      unfold verify. repeat split_match; cbn [snd]; discriminate.
    + split; [discriminate | intros [_ H]; discriminate].
  - split; [discriminate | intros [[g H] _]; discriminate].
Qed.

Lemma vessel_body_continue_same df th mmsi traj st :
  snd (vessel_body df th mmsi traj st) = Continue ->
  fst (vessel_body df th mmsi traj st) = st.
Proof.
  intros H. apply vessel_body_continue in H as [[g Hg] Hp].
  unfold vessel_body. now rewrite Hg, Hp.
Qed.

(** What one pass does to the counters. *)
Lemma iteration_accounting df th st e :
  let st' := iteration (vessel_body df th) st e in
  processed (counts st')
  = processed (counts st) + (if projects_empty df e then 0 else 1)
  /\ classified (counts st')
     = classified (counts st)
       + (if projects_empty df e || fails_early df e then 0 else 1).
Proof.
  unfold iteration, projects_empty, fails_early, classified, vessel_body.
  destruct (get_group (rows df) (fst e)) as [g|err]; [| cbn; lia].
  destruct (project (snd e)) as [[|p pl]|err]; cbn [is_empty];
    [cbn; lia | | cbn; lia].
  unfold verify, count_classification.
  destruct (classify _ th) eqn:Ec.
  - exfalso. revert Ec. apply classify_not_other.
  - cbn [plot_dir_of]. repeat split_match; cbn; lia.
  - cbn [plot_dir_of]. repeat split_match; cbn; lia.
  - cbn [plot_dir_of]. repeat split_match; cbn; lia.
  - cbn [plot_dir_of]. repeat split_match; cbn; lia.
Qed.

(** The accounts of a whole run: [processed] misses the vessels whose
    projection was empty, and the classification counters miss, of the
    processed ones, those that raised before they were classified. *)
Lemma loop_accounting df th trajectories st :
  let st' := fold_left (iteration (vessel_body df th)) trajectories st in
  processed (counts st')
  = processed (counts st) + Z.of_nat (length trajectories)
    - count_where (projects_empty df) trajectories
  /\ classified (counts st')
     = classified (counts st)
       + (processed (counts st') - processed (counts st))
       - count_where (fails_early df) trajectories.
Proof.
  revert st. unfold count_where.
  induction trajectories as [|e l IH]; intros st; cbn [fold_left].
  - cbn. lia.
  - specialize (IH (iteration (vessel_body df th) st e)).
    pose proof (iteration_accounting df th st e) as H. cbv zeta in *.
    cbn [filter length].
    assert (D : projects_empty df e = true -> fails_early df e = false).
    { unfold projects_empty, fails_early.
      destruct (get_group (rows df) (fst e)); [| discriminate].
      destruct (project (snd e)); [reflexivity | discriminate]. }
    destruct (projects_empty df e), (fails_early df e);
      cbn [orb length] in *; try (specialize (D eq_refl); discriminate);
      lia.
Qed.

Lemma process_trajectories_accounting trajectories df th :
  let r := process_trajectories trajectories df th in
  processed (counts r)
  = Z.of_nat (length trajectories) - count_where (projects_empty df) trajectories
  /\ classified (counts r)
     = processed (counts r) - count_where (fails_early df) trajectories.
Proof.
  pose proof (loop_accounting df th trajectories start) as H.
  unfold process_trajectories. cbv zeta in *. cbn in H. unfold classified in *.
  cbn in H. lia.
Qed.

(** The same accounts hold in [trajectory_processor.py]. *)
Lemma iteration_accounting_tp df th st e :
  let st' := iteration (vessel_body_tp df th) st e in
  processed (counts st')
  = processed (counts st) + (if projects_empty df e then 0 else 1)
  /\ classified (counts st')
     = classified (counts st)
       + (if projects_empty df e || fails_early df e then 0 else 1).
Proof.
  unfold iteration, projects_empty, fails_early, classified, vessel_body_tp.
  destruct (get_group (rows df) (fst e)) as [g|err]; [| cbn; lia].
  destruct (project (snd e)) as [[|p pl]|err]; cbn [is_empty];
    [cbn; lia | | cbn; lia].
  destruct (classify_tp _ th) eqn:Ec; cbn [plot_dir_of];
    try (repeat split_match; cbn; lia).
  - exfalso. revert Ec. unfold classify_tp.
    destruct (avg_sog _);
      [destruct (Qltb _ _ && small_and_dense _ th) |]; cbn [negb];
      try discriminate; destruct (0 <? proximity_hits _); discriminate.
  - exfalso. revert Ec. unfold classify_tp.
    destruct (avg_sog _);
      [destruct (Qltb _ _ && small_and_dense _ th) |]; cbn [negb];
      try discriminate; destruct (0 <? proximity_hits _); discriminate.
Qed.

Lemma process_trajectories_tp_accounting trajectories df th :
  let r := process_trajectories_tp trajectories df th in
  processed (counts r)
  = Z.of_nat (length trajectories) - count_where (projects_empty df) trajectories
  /\ classified (counts r)
     = processed (counts r) - count_where (fails_early df) trajectories.
Proof.
  unfold process_trajectories_tp.
  assert (H : forall st,
             let st' := fold_left (iteration (vessel_body_tp df th))
                          trajectories st in
             processed (counts st')
             = processed (counts st) + Z.of_nat (length trajectories)
               - count_where (projects_empty df) trajectories
             /\ classified (counts st')
                = classified (counts st)
                  + (processed (counts st') - processed (counts st))
                  - count_where (fails_early df) trajectories).
  { unfold count_where.
    induction trajectories as [|e l IH]; intros st; cbn [fold_left].
    - cbn. lia.
    - specialize (IH (iteration (vessel_body_tp df th) st e)).
      pose proof (iteration_accounting_tp df th st e) as H. cbv zeta in *.
      cbn [filter length].
      assert (D : projects_empty df e = true -> fails_early df e = false).
      { unfold projects_empty, fails_early.
        destruct (get_group (rows df) (fst e)); [| discriminate].
        destruct (project (snd e)); [reflexivity | discriminate]. }
      destruct (projects_empty df e), (fails_early df e);
        cbn [orb length] in *; try (specialize (D eq_refl); discriminate);
        lia. }
  specialize (H start). cbv zeta in *. cbn in H. unfold classified in *.
  cbn in H. lia.
Qed.

(** Where no projection is empty, the counters are as C10 has them:
    [processed] is the number of trajectories, the classification counters
    sum to at most that, and to less exactly when a vessel raised before it
    was classified. *)
Lemma counters_without_empty_projection trajectories df th :
  count_where (projects_empty df) trajectories = 0 ->
  let r := process_trajectories trajectories df th in
  processed (counts r) = Z.of_nat (length trajectories)
  /\ classified (counts r) <= processed (counts r)
  /\ (classified (counts r) < processed (counts r) <->
      exists e, In e trajectories /\ fails_early df e = true).
Proof.
  intros H0 r.
  pose proof (process_trajectories_accounting trajectories df th) as [Hp Hc].
  fold r in Hp, Hc. rewrite H0 in Hp. unfold count_where in *.
  split; [lia |]. split; [lia |]. rewrite Hc. split.
  - intros H.
    destruct (filter (fails_early df) trajectories) as [|e l] eqn:E;
      [cbn in H; lia |].
    exists e. apply filter_In. rewrite E. now left.
  - intros (e & He & Hf).
    assert (Hin : In e (filter (fails_early df) trajectories))
      by now apply filter_In.
    destruct (filter (fails_early df) trajectories); [destruct Hin |].
    cbn [length]. lia.
Qed.

End LoopProperties.

(** ** Groups *)

Lemma in_insert_key k ks x : In x (insert_key k ks) <-> x = k \/ In x ks.
Proof.
  induction ks as [|k' r IH]; cbn.
  - intuition auto.
  - destruct (k <? k'); [cbn; intuition auto |].
    destruct (k =? k') eqn:E.
    + apply Z.eqb_eq in E. subst k'. cbn. intuition auto.
    + cbn. rewrite IH. intuition auto.
Qed.

Lemma insert_key_sorted k ks :
  StronglySorted Z.lt ks -> StronglySorted Z.lt (insert_key k ks).
Proof.
  induction 1 as [|k' r Hs IH Hk]; cbn; [repeat constructor |].
  destruct (k <? k') eqn:E1.
  - apply Z.ltb_lt in E1. constructor; [now constructor |].
    constructor; [exact E1 |].
    eapply Forall_impl; [| exact Hk]. cbn. intros; lia.
  - destruct (k =? k') eqn:E2; [now constructor |].
    apply Z.ltb_ge in E1. apply Z.eqb_neq in E2.
    constructor; [exact IH |]. apply Forall_forall. intros x Hx.
    apply in_insert_key in Hx as [-> | Hx]; [lia |].
    revert x Hx. now apply Forall_forall.
Qed.

Lemma group_keys_from acc rs :
  (forall x,
      In x (fold_left (fun ks r => insert_key (MMSI r) ks) rs acc) <->
      In x acc \/ In x (map MMSI rs))
  /\ (StronglySorted Z.lt acc ->
      StronglySorted Z.lt
        (fold_left (fun ks r => insert_key (MMSI r) ks) rs acc)).
Proof.
  revert acc. induction rs as [|r rs IH]; intros acc; cbn [fold_left map].
  - split; [intros x; cbn; tauto | auto].
  - destruct (IH (insert_key (MMSI r) acc)) as [IH1 IH2]. split.
    + intros x. rewrite IH1, in_insert_key. cbn. intuition auto.
    + intros H. now apply IH2, insert_key_sorted.
Qed.

Lemma in_group_keys rs k : In k (group_keys rs) <-> In k (map MMSI rs).
Proof.
  unfold group_keys. rewrite (proj1 (group_keys_from [] rs)). cbn. tauto.
Qed.

Lemma group_keys_sorted rs : StronglySorted Z.lt (group_keys rs).
Proof. apply (proj2 (group_keys_from [] rs)). constructor. Qed.

(** Two strictly increasing lists with the same elements are equal. *)
Lemma sorted_ext (l1 l2 : list Z) :
  StronglySorted Z.lt l1 -> StronglySorted Z.lt l2 ->
  (forall x, In x l1 <-> In x l2) -> l1 = l2.
Proof.
  intros H1. revert l2. induction H1 as [|a l1 Hs1 IH Ha]; intros l2 H2 E.
  - destruct l2 as [|b l2]; [reflexivity |].
    exfalso. apply (proj2 (E b)). now left.
  - destruct H2 as [|b l2 Hs2 Hb].
    + exfalso. apply (proj1 (E a)). now left.
    + rewrite Forall_forall in Ha, Hb.
      assert (a = b).
      { destruct (proj1 (E a) (or_introl eq_refl)) as [-> | Hab];
          [reflexivity |].
        destruct (proj2 (E b) (or_introl eq_refl)) as [-> | Hba];
          [reflexivity |].
        apply Hb in Hab. apply Ha in Hba. lia. }
      subst b. f_equal. apply IH; [exact Hs2 |]. intros x. split; intros Hx.
      * destruct (proj1 (E x) (or_intror Hx)) as [-> | H]; [| exact H].
        apply Ha in Hx. lia.
      * destruct (proj2 (E x) (or_intror Hx)) as [-> | H]; [| exact H].
        apply Hb in Hx. lia.
Qed.

Lemma get_group_ok rs k :
  In k (group_keys rs) -> get_group rs k = Ok (group_of rs k).
Proof.
  unfold get_group, groupby. intros H.
  induction (group_keys rs) as [|k' ks IH]; [destruct H |].
  cbn [map find fst]. destruct (k' =? k) eqn:E.
  - apply Z.eqb_eq in E. now subst k'.
  - apply IH. destruct H as [-> | H]; [| exact H].
    now rewrite Z.eqb_refl in E.
Qed.

Lemma get_group_raise rs k :
  ~ In k (group_keys rs) -> get_group rs k = Raise key_error.
Proof.
  unfold get_group, groupby. intros H.
  induction (group_keys rs) as [|k' ks IH]; [reflexivity |].
  cbn [map find fst]. destruct (k' =? k) eqn:E.
  - apply Z.eqb_eq in E. subst k'. exfalso. apply H. now left.
  - apply IH. intros H'. apply H. now right.
Qed.

(** Removing a vessel's fixes removes its group and leaves the others. *)
Lemma group_of_without m df k :
  k <> m -> group_of (rows (without m df)) k = group_of (rows df) k.
Proof.
  intros Hk. unfold group_of, without. cbn [rows].
  induction (rows df) as [|r rs IH]; [reflexivity |]. cbn [filter].
  destruct (MMSI r =? m) eqn:Em; cbn [negb].
  - apply Z.eqb_eq in Em. destruct (MMSI r =? k) eqn:Ek; [| exact IH].
    apply Z.eqb_eq in Ek. congruence.
  - cbn [filter]. now rewrite IH.
Qed.

Lemma group_keys_without m df :
  group_keys (rows (without m df))
  = filter (fun k => negb (k =? m)) (group_keys (rows df)).
Proof.
  apply sorted_ext.
  - apply group_keys_sorted.
  - apply filter_strongly_sorted, group_keys_sorted.
  - intros x. rewrite filter_In, !in_group_keys, !in_map_iff.
    unfold without. cbn [rows]. split.
    + intros (r & <- & Hr). apply filter_In in Hr as [Hr Hm].
      split; [now exists r | exact Hm].
    + intros [(r & <- & Hr) Hm]. exists r. split; [reflexivity |].
      now apply filter_In.
Qed.

Lemma groupby_without m df :
  groupby (rows (without m df))
  = filter (fun g => negb (fst g =? m)) (groupby (rows df)).
Proof.
  unfold groupby. rewrite group_keys_without.
  induction (group_keys (rows df)) as [|k ks IH]; [reflexivity |].
  cbn [filter map fst]. destruct (k =? m) eqn:E; cbn [negb]; [exact IH |].
  cbn [map]. rewrite IH, group_of_without; [reflexivity |].
  now apply Z.eqb_neq.
Qed.

Lemma get_group_without m df k :
  k <> m -> get_group (rows (without m df)) k = get_group (rows df) k.
Proof.
  intros Hk.
  assert (E : In k (group_keys (rows (without m df)))
              <-> In k (group_keys (rows df))).
  { rewrite group_keys_without, filter_In.
    apply Z.eqb_neq in Hk. rewrite Hk. cbn. tauto. }
  destruct (in_dec Z.eq_dec k (group_keys (rows df))) as [H | H].
  - rewrite !get_group_ok by tauto. now rewrite group_of_without.
  - rewrite !get_group_raise by tauto. reflexivity.
Qed.

(** [build_trajectories] looks only at the groups that have enough rows. *)
Lemma build_trajectories_filter column min_points groups acc :
  build_trajectories column min_points groups acc
  = build_trajectories column min_points
      (filter (fun g => min_points <=? Z.of_nat (length (snd g))) groups) acc.
Proof.
  revert acc. induction groups as [|[k g] groups IH]; intros acc;
    [reflexivity |].
  cbn [build_trajectories filter snd].
  destruct (min_points <=? Z.of_nat (length g)) eqn:E.
  - cbn [build_trajectories]. rewrite E.
    destruct (mk_LineString _); cbn [bind]; [apply IH | reflexivity].
  - apply IH.
Qed.

Lemma create_trajectories_unguarded df min_points :
  create_trajectories df min_points
  = match build_trajectories by_index min_points (groupby (rows df)) [] with
    | Ok trajectories => trajectories
    | Raise _ => []
    end.
Proof.
  unfold create_trajectories, empty.
  destruct (rows df); reflexivity.
Qed.

Lemma filter_filter_absorb {A} (p q : A -> bool) l :
  (forall x, In x l -> q x = true -> p x = true) ->
  filter q (filter p l) = filter q l.
Proof.
  induction l as [|x l IH]; intros H; [reflexivity |]. cbn [filter].
  assert (IH' := IH (fun y Hy => H y (or_intror Hy))).
  destruct (p x) eqn:Ep; cbn [filter]; [now rewrite IH' |].
  destruct (q x) eqn:Eq; [| exact IH'].
  rewrite (H x (or_introl eq_refl) Eq) in Ep. discriminate.
Qed.

Lemma create_trajectories_without m df min_points :
  Z.of_nat (length (group_of (rows df) m)) < min_points ->
  create_trajectories (without m df) min_points
  = create_trajectories df min_points.
Proof.
  intros Hm. rewrite !create_trajectories_unguarded.
  rewrite (build_trajectories_filter _ _ (groupby (rows (without m df)))).
  rewrite (build_trajectories_filter _ _ (groupby (rows df))).
  rewrite groupby_without, filter_filter_absorb; [reflexivity |].
  intros [k g] Hg Hq. apply in_groupby in Hg. subst g. cbn [fst snd] in *.
  apply Z.leb_le in Hq. apply negb_true_iff, Z.eqb_neq. intros ->. lia.
Qed.

Lemma fold_left_ext_in {A B} (f g : A -> B -> A) l a :
  (forall x b, In b l -> f x b = g x b) -> fold_left f l a = fold_left g l a.
Proof.
  revert a. induction l as [|b l IH]; intros a H; [reflexivity |].
  cbn [fold_left]. rewrite (H a b (or_introl eq_refl)).
  apply IH. intros x b' Hb. apply H. now right.
Qed.

Section AbsentVessel.
Context {Lib : Libraries} {Srv : Services}.

Lemma vessel_body_without m df th k traj st :
  k <> m ->
  vessel_body (without m df) th k traj st = vessel_body df th k traj st.
Proof.
  intros Hk. unfold vessel_body. rewrite get_group_without by exact Hk.
  reflexivity.
Qed.

Lemma process_trajectories_without m df th trajectories :
  ~ In m (map fst trajectories) ->
  process_trajectories trajectories (without m df) th
  = process_trajectories trajectories df th.
Proof.
  intros H. unfold process_trajectories. apply fold_left_ext_in.
  intros st e He. unfold iteration. rewrite vessel_body_without; [reflexivity |].
  intros E. apply H. rewrite <- E. now apply in_map.
Qed.

(** C7. A vessel whose group has fewer than 5 fixes gets a proximity count
    of 0 whatever the libraries compute; with a minimum of 5 points it is
    not among the trajectories; the run names it in no list, plot or copy;
    and the whole run is the run on the table without that vessel's fixes,
    so that no counter owes anything to it. *)
Theorem short_vessel_never_appears (df : DataFrame) (mmsi : Z)
  (th : Thresholds) :
  (length (group_of (rows df) mmsi) < 5)%nat ->
  (forall traj t,
      (length traj <= length (group_of (rows df) mmsi))%nat ->
      count_self_proximity_hits (Some traj) t = 0)
  /\ ~ In mmsi (map fst (create_trajectories df 5))
  /\ ~ In mmsi (mentions (process_trajectories (create_trajectories df 5) df th))
  /\ process_trajectories (create_trajectories df 5) df th
     = process_trajectories (create_trajectories (without mmsi df) 5)
         (without mmsi df) th.
Proof.
  intros Hlen.
  assert (Hkeys : ~ In mmsi (map fst (create_trajectories df 5))).
  { intros H. apply in_map_iff in H as ([k traj] & E & H).
    cbn [fst] in E. subst k. apply in_create_trajectories in H as [H _].
    lia. }
  split; [| split; [exact Hkeys | split]].
  - intros traj t Ht. apply count_short_trajectory. lia.
  - intros H. apply loop_mentions in H as [H | H]; [now apply Hkeys |].
    destruct H.
  - rewrite create_trajectories_without by lia.
    symmetry. now apply process_trajectories_without.
Qed.

End AbsentVessel.

(** C7 at vessel 333 of the table, which has three fixes. *)
Lemma short_vessel_never_appears_witness :
  ~ In 333 (map fst (create_trajectories demo_df 5))
  /\ ~ In 333
       (mentions
          (@process_trajectories demo_libraries
             (demo_services service_down disk_ok)
             (create_trajectories demo_df 5) demo_df THRESHOLDS)).
Proof.
  pose proof (@short_vessel_never_appears demo_libraries
                (demo_services service_down disk_ok) demo_df 333 THRESHOLDS)
    as H.
  assert (Hlen : (length (group_of (rows demo_df) 333) < 5)%nat)
    by (cbn; lia).
  destruct (H Hlen) as (_ & H1 & H2 & _). split; assumption.
Defined.

Example demo_trajectories :
  create_trajectories demo_df 5 = [(111, track_111); (222, track_222)].
Proof. reflexivity. Qed.

(** ** ProjectionEngine *)

Section FallbackProperties.
Context {Lib : Libraries} {Srv : Services}.

(** C6, as amended. The fallback to EPSG:3857 is taken when the centroid is
    not a non-empty point or when building the UTM CRS raises; otherwise the
    UTM CRS is the target.  The reprojection is applied once, to that
    target: when it raises, [count_self_proximity_hits] returns 0 and the
    loop body of [process_trajectories] raises for that vessel, leaving the
    run as it was. *)
Theorem projection_fallback (traj : LineString) :
  (centroid traj = None -> choose_target_crs traj = EPSG_3857)
  /\ (forall x y e, centroid traj = Some (x, y) ->
      estimate_utm_crs y x = Raise e -> choose_target_crs traj = EPSG_3857)
  /\ (forall x y c, centroid traj = Some (x, y) ->
      estimate_utm_crs y x = Ok c -> choose_target_crs traj = c)
  /\ project traj = to_crs (choose_target_crs traj) traj
  /\ (forall e, to_crs (choose_target_crs traj) traj = Raise e ->
      (forall t, count_self_proximity_hits (Some traj) t = 0)
      /\ (forall df th mmsi g st, get_group (rows df) mmsi = Ok g ->
          vessel_body df th mmsi traj st = (st, Raised e))).
Proof.
  unfold choose_target_crs.
  split; [| split; [| split; [| split]]].
  - now intros ->.
  - now intros x y e -> ->.
  - now intros x y c -> ->.
  - reflexivity.
  - intros e He. split.
    + intros t. now apply (count_projection_raises traj e).
    + intros df th mmsi g st Hg. unfold vessel_body. rewrite Hg.
      unfold project, choose_target_crs. now rewrite He.
Qed.

End FallbackProperties.

(** C6 as amended, where building the UTM CRS raises: a centroid on the
    antimeridian asks for zone 61. *)
Lemma projection_fallback_witness :
  @choose_target_crs demo_libraries [(180, 0); (180, 1)]%Q = EPSG_3857.
Proof.
  apply (proj1 (proj2 (@projection_fallback demo_libraries
                         (demo_services service_down disk_ok)
                         [(180, 0); (180, 1)]%Q))
           180%Q 0%Q (Exn CRSError (py "Invalid UTM zone")));
    reflexivity.
Defined.

(** C6 as stated fails: the UTM CRS of vessel 111 is built, applying it
    raises, the fallback projection would have worked, and yet nothing is
    projected and the vessel fails. *)
Lemma projection_fallback_counterexample :
  @choose_target_crs utm_fails_libraries track_111 = UTM 31 false
  /\ @to_crs utm_fails_libraries (UTM 31 false) track_111
     = Raise (Exn ProjError (py "Invalid projection"))
  /\ @to_crs utm_fails_libraries EPSG_3857 track_111
     = Ok (to_metres track_111)
  /\ @project utm_fails_libraries track_111
     = Raise (Exn ProjError (py "Invalid projection"))
  /\ @vessel_body utm_fails_libraries (demo_services service_down disk_ok)
       demo_df THRESHOLDS 111 track_111 start
     = (start, Raised (Exn ProjError (py "Invalid projection"))).
Proof. repeat split. Qed.

(** ** Counters *)

Section Accounting.
Context {Lib : Libraries} {Srv : Services}.





End Accounting.


(** Handed an empty line for a vessel of the table, a line that
    [create_trajectories] never emits, the loop jumps over the increment of
    [processed] with [continue]: two trajectories are counted as one. *)
Example empty_line_is_not_counted :
  let trajectories := [(111, []); (222, track_222)] in
  let r := @process_trajectories demo_libraries
             (demo_services service_down disk_ok)
             trajectories demo_df THRESHOLDS in
  let r' := @process_trajectories_tp demo_libraries
              (demo_services service_down disk_ok)
              trajectories demo_df THRESHOLDS in
  length trajectories = 2%nat
  /\ processed (counts r) = 1 /\ classified (counts r) = 1
  /\ processed (counts r') = 1 /\ classified (counts r') = 1.
Proof. vm_compute. repeat split. Qed.

(** ** ExternalPatternVerifier *)

(** The decoder raises nothing but [JSONDecodeError]. *)
Lemma json_loads_raises s e : json_loads s = Raise e -> e = decode_error.
Proof.
  unfold json_loads. destruct (lex LStart s); [| now intros [= <-]].
  destruct (fold_left parse_step _ _); intros H; now inversion H.
Qed.

(** A text that starts with [ERROR: ] is not JSON. *)
Lemma json_loads_error_text msg :
  json_loads (py "ERROR: " ++ msg) = Raise decode_error.
Proof. reflexivity. Qed.

Lemma extract_classification_cases vlm_result :
  match json_loads vlm_result with
  | Raise _ => extract_classification vlm_result = ParsingError
  | Ok (JObj members) =>
      extract_classification vlm_result
      = match dict_lookup (py "classification") members with
        | Some v => v
        | None => JStr (py "UNKNOWN")
        end
  | Ok _ => extract_classification vlm_result = JStr (py "ERROR")
  end.
Proof.
  unfold extract_classification.
  destruct (json_loads vlm_result) as [v|e] eqn:E; cbn [bind].
  - destruct v; try reflexivity. cbn [get_classification].
    now destruct (dict_lookup _ _).
  - apply json_loads_raises in E. now subst e.
Qed.

Section VerifierProperties.
Context {Lib : Libraries} {Srv : Services}.

Lemma vessel_body_pattern_info df th mmsi traj st :
  exists l,
    pattern_info (fst (vessel_body df th mmsi traj st)) = pattern_info st ++ l.
Proof.
  body_cases; cbn;
    first [ now (exists []; rewrite app_nil_r) | eexists; reflexivity ].
Qed.

Lemma iteration_pattern_info df th st e :
  exists l,
    pattern_info (iteration (vessel_body df th) st e) = pattern_info st ++ l.
Proof.
  unfold iteration.
  destruct (vessel_body_pattern_info df th (fst e) (snd e) st) as [l H].
  destruct (vessel_body df th (fst e) (snd e) st) as [st' s].
  cbn [fst] in H. exists l. now destruct s.
Qed.

(** An entry of [pattern_info] stays until the end of the run. *)
Lemma loop_keeps_pattern_info df th rest st info :
  In info (pattern_info st) ->
  In info (pattern_info (fold_left (iteration (vessel_body df th)) rest st)).
Proof.
  revert st. induction rest as [|e rest IH]; intros st H; [exact H |].
  cbn [fold_left]. apply IH.
  destruct (iteration_pattern_info df th st e) as [l ->].
  apply in_app_iff. now left.
Qed.

(** Where both files can be written, the full table holds all of
    [pattern_info]. *)
Lemma save_writes_full_table infos output_path :
  infos <> [] ->
  (forall p t, write_csv p t = Ok tt) ->
  exists path, In (Wrote path (FullTable infos))
                 (save_vlm_results infos output_path).
Proof.
  intros Hne Hw. unfold save_vlm_results.
  destruct infos as [|i l]; [congruence |]. rewrite !Hw.
  eexists. cbn. right. right. left. reflexivity.
Qed.

(** A vessel that reaches the verifier: what its pass leaves behind. *)
Lemma candidate_iteration df th st mmsi traj g projected :
  get_group (rows df) mmsi = Ok g ->
  project traj = Ok projected ->
  is_empty projected = false ->
  classify (metrics_of df g traj projected) th = PotentialPattern ->
  plot_trajectory mmsi PotentialPattern (metrics_of df g traj projected)
    (pattern_dir, mmsi) = true ->
  let st' := iteration (vessel_body df th) st (mmsi, traj) in
  let vlm_result := analyze_trajectory_with_claude (pattern_dir, mmsi) in
  exists info,
    pattern_info st' = pattern_info st ++ [info]
    /\ mmsi_of info = mmsi
    /\ vlm_raw_result info = vlm_result
    /\ survey_classification info = extract_classification vlm_result
    /\ processed (counts st') = processed (counts st) + 1.
Proof.
  intros Hg Hp He Hc Hplot. unfold iteration, vessel_body. cbn [fst snd].
  rewrite Hg, Hp, He, Hc. cbn [plot_dir_of]. rewrite Hplot.
  unfold verify. repeat split_match; cbn; eexists; repeat split; reflexivity.
Qed.

(** The entry of a candidate is in what the run returns and, where the
    files can be written, in the full table. *)
Lemma candidate_persisted df th st e info rest output_path :
  In info (pattern_info (iteration (vessel_body df th) st e)) ->
  let final :=
    fold_left (iteration (vessel_body df th)) rest
      (iteration (vessel_body df th) st e) in
  In info (pattern_info final)
  /\ ((forall p t, write_csv p t = Ok tt) ->
      exists path infos,
        In (Wrote path (FullTable infos))
          (save_vlm_results (pattern_info final) output_path)
        /\ In info infos).
Proof.
  intros H final.
  assert (Hin : In info (pattern_info final))
    by now apply loop_keeps_pattern_info.
  split; [exact Hin |]. intros Hw.
  destruct (save_writes_full_table (pattern_info final) output_path)
    as [path Hpath]; [| exact Hw |].
  - intros E. now rewrite E in Hin.
  - now exists path, (pattern_info final).
Qed.

(** C3, as amended. When the verification call of a candidate raises, its
    entry is appended to [pattern_info] with the raw text
    [ERROR: ] followed by the text of the exception and with the
    classification [PARSING_ERROR], the one a malformed answer gets; the
    vessel is counted as processed, the loop goes on, and the entry is in
    what the run returns and in the full table when that is written. *)
Theorem service_failure_recorded (df : DataFrame) (th : Thresholds)
  (st : Run) (mmsi : Z) (traj : LineString) (g : list Fix)
  (projected : LineString) (e : exn)
  (rest : list (Z * LineString)) (output_path : text) :
  get_group (rows df) mmsi = Ok g ->
  project traj = Ok projected ->
  is_empty projected = false ->
  classify (metrics_of df g traj projected) th = PotentialPattern ->
  plot_trajectory mmsi PotentialPattern (metrics_of df g traj projected)
    (pattern_dir, mmsi) = true ->
  messages_create (pattern_dir, mmsi) = Raise e ->
  let st' := iteration (vessel_body df th) st (mmsi, traj) in
  let final := fold_left (iteration (vessel_body df th)) rest st' in
  exists info,
    pattern_info st' = pattern_info st ++ [info]
    /\ mmsi_of info = mmsi
    /\ vlm_raw_result info = py "ERROR: " ++ exn_str e
    /\ survey_classification info = ParsingError
    /\ processed (counts st') = processed (counts st) + 1
    /\ In info (pattern_info final)
    /\ ((forall p t, write_csv p t = Ok tt) ->
        exists path infos,
          In (Wrote path (FullTable infos))
            (save_vlm_results (pattern_info final) output_path)
          /\ In info infos).
Proof.
  intros Hg Hp He Hc Hplot Hm st' final.
  destruct (candidate_iteration df th st mmsi traj g projected Hg Hp He Hc
              Hplot) as (info & Hi & Hmm & Hraw & Hsc & Hpr).
  fold st' in Hi, Hpr.
  assert (Ha : analyze_trajectory_with_claude (pattern_dir, mmsi)
               = py "ERROR: " ++ exn_str e).
  { unfold analyze_trajectory_with_claude. now rewrite Hm. }
  rewrite Ha in Hraw, Hsc. exists info.
  split; [exact Hi |]. split; [exact Hmm |]. split; [exact Hraw |].
  split; [exact Hsc |]. split; [exact Hpr |].
  apply candidate_persisted. fold st'. rewrite Hi. apply in_app_iff.
  right. now left.
Qed.

(** C4, as amended. The entry of a candidate whose verification call
    returned a text holds that text, stripped, and a classification read
    from it: [PARSING_ERROR] when it is not JSON; the value of the
    [classification] member, whatever it is, when it is a JSON object that
    has one; [UNKNOWN] when it is an object without one; [ERROR] when it is
    any other JSON value.  The vessel is counted as processed, the loop
    goes on, and the entry is in what the run returns and in the full table
    when that is written. *)
Theorem response_recorded (df : DataFrame) (th : Thresholds)
  (st : Run) (mmsi : Z) (traj : LineString) (g : list Fix)
  (projected : LineString) (response : text)
  (rest : list (Z * LineString)) (output_path : text) :
  get_group (rows df) mmsi = Ok g ->
  project traj = Ok projected ->
  is_empty projected = false ->
  classify (metrics_of df g traj projected) th = PotentialPattern ->
  plot_trajectory mmsi PotentialPattern (metrics_of df g traj projected)
    (pattern_dir, mmsi) = true ->
  messages_create (pattern_dir, mmsi) = Ok response ->
  let st' := iteration (vessel_body df th) st (mmsi, traj) in
  let final := fold_left (iteration (vessel_body df th)) rest st' in
  exists info,
    pattern_info st' = pattern_info st ++ [info]
    /\ mmsi_of info = mmsi
    /\ vlm_raw_result info = strip response
    /\ match json_loads (strip response) with
       | Raise _ => survey_classification info = ParsingError
       | Ok (JObj members) =>
           survey_classification info
           = match dict_lookup (py "classification") members with
             | Some v => v
             | None => JStr (py "UNKNOWN")
             end
       | Ok _ => survey_classification info = JStr (py "ERROR")
       end
    /\ processed (counts st') = processed (counts st) + 1
    /\ In info (pattern_info final)
    /\ ((forall p t, write_csv p t = Ok tt) ->
        exists path infos,
          In (Wrote path (FullTable infos))
            (save_vlm_results (pattern_info final) output_path)
          /\ In info infos).
Proof.
  intros Hg Hp He Hc Hplot Hm st' final.
  destruct (candidate_iteration df th st mmsi traj g projected Hg Hp He Hc
              Hplot) as (info & Hi & Hmm & Hraw & Hsc & Hpr).
  fold st' in Hi, Hpr.
  assert (Ha : analyze_trajectory_with_claude (pattern_dir, mmsi)
               = strip response).
  { unfold analyze_trajectory_with_claude. now rewrite Hm. }
  rewrite Ha in Hraw, Hsc. exists info.
  split; [exact Hi |]. split; [exact Hmm |]. split; [exact Hraw |].
  split; [| split; [exact Hpr |]].
  - rewrite Hsc. apply extract_classification_cases.
  - apply candidate_persisted. fold st'. rewrite Hi. apply in_app_iff.
    right. now left.
Qed.

End VerifierProperties.

(** C3 as amended, at vessel 111 of the table when the service is down. *)
Lemma service_failure_recorded_witness :
  exists info,
    In info
      (pattern_info
         (@process_trajectories demo_libraries
            (demo_services service_down disk_ok)
            [(111, track_111); (222, track_222)] demo_df THRESHOLDS))
    /\ vlm_raw_result info = py "ERROR: Connection error."
    /\ survey_classification info = ParsingError.
Proof.
  destruct (@service_failure_recorded demo_libraries
              (demo_services service_down disk_ok) demo_df THRESHOLDS start
              111 track_111 (group_of (rows demo_df) 111)
              (to_metres track_111) (Exn APIError (py "Connection error."))
              [(222, track_222)] (py "plots"))
    as (info & _ & _ & Hraw & Hsc & _ & Hin & _); try reflexivity.
  exists info. split; [exact Hin |]. split; [exact Hraw | exact Hsc].
Defined.

(** C3 as stated fails: with the service down, the candidate's
    classification is the one recorded for an answer that is not JSON. *)
Lemma service_failure_counterexample :
  map (fun i => (mmsi_of i, survey_classification i))
    (pattern_info
       (@process_trajectories demo_libraries
          (demo_services service_down disk_ok)
          (create_trajectories demo_df 5) demo_df THRESHOLDS))
  = [(111, ParsingError)]
  /\ map (fun i => (mmsi_of i, survey_classification i))
       (pattern_info
          (@process_trajectories demo_libraries
             (demo_services (service_says "I cannot tell.") disk_ok)
             (create_trajectories demo_df 5) demo_df THRESHOLDS))
     = [(111, ParsingError)].
Proof. split; reflexivity. Qed.

(** C4 as amended, at vessel 111 of the table when the service answers an
    empty object. *)
Lemma response_recorded_witness :
  exists info,
    In info
      (pattern_info
         (@process_trajectories demo_libraries
            (demo_services (service_says "{}") disk_ok)
            [(111, track_111); (222, track_222)] demo_df THRESHOLDS))
    /\ vlm_raw_result info = py "{}"
    /\ survey_classification info = JStr (py "UNKNOWN").
Proof.
  destruct (@response_recorded demo_libraries
              (demo_services (service_says "{}") disk_ok) demo_df THRESHOLDS
              start 111 track_111 (group_of (rows demo_df) 111)
              (to_metres track_111) (py "{}")
              [(222, track_222)] (py "plots"))
    as (info & _ & _ & Hraw & Hsc & _ & Hin & _); try reflexivity.
  exists info. split; [exact Hin |]. split; [exact Hraw | exact Hsc].
Defined.

(** C4 as stated fails: the answers [{}] and [[]] do not have the expected
    structure, and what is recorded for them is neither [PARSING_ERROR] nor
    one of the three labels. *)
Lemma response_recorded_counterexample :
  ~ interpretable (py "{}") /\ ~ interpretable (py "[]")
  /\ map (fun i => (mmsi_of i, survey_classification i, vlm_raw_result i))
       (pattern_info
          (@process_trajectories demo_libraries
             (demo_services (service_says "{}") disk_ok)
             (create_trajectories demo_df 5) demo_df THRESHOLDS))
     = [(111, JStr (py "UNKNOWN"), py "{}")]
  /\ map (fun i => (mmsi_of i, survey_classification i, vlm_raw_result i))
       (pattern_info
          (@process_trajectories demo_libraries
             (demo_services (service_says "[]") disk_ok)
             (create_trajectories demo_df 5) demo_df THRESHOLDS))
     = [(111, JStr (py "ERROR"), py "[]")]
  /\ ~ In (JStr (py "UNKNOWN")) (ParsingError :: survey_labels)
  /\ ~ In (JStr (py "ERROR")) (ParsingError :: survey_labels).
Proof.
  split; [| split; [| split; [| split; [| split]]]].
  - intros (v & Hv & members & c & e & -> & Hc & _).
    vm_compute in Hv. inversion Hv; subst. discriminate.
  - intros (v & Hv & members & c & e & -> & _).
    vm_compute in Hv. discriminate.
  - reflexivity.
  - reflexivity.
  - cbn. intros [H | [H | [H | [H | []]]]]; discriminate.
  - cbn. intros [H | [H | [H | [H | []]]]]; discriminate.
Qed.

(** An answer of the expected structure is recorded under its label. *)
Lemma interpretable_recorded response :
  interpretable response ->
  In (extract_classification response) survey_labels.
Proof.
  intros (v & Hv & members & c & e & -> & Hc & Hl & _).
  pose proof (extract_classification_cases response) as H.
  rewrite Hv, Hc in H. now rewrite H.
Qed.

Example well_formed_answer :
  extract_classification
    (answer_with "POSSIBLE_SURVEY_PATTERN" "Parallel lines with tight turns.")
  = JStr (py "POSSIBLE_SURVEY_PATTERN").
Proof. reflexivity. Qed.

Example unlisted_label_is_recorded :
  extract_classification (answer_with "MAYBE" "Hard to say.")
  = JStr (py "MAYBE").
Proof. reflexivity. Qed.

Example number_as_label_is_recorded :
  extract_classification (py "{" ++ quoted "classification" ++ py ": 3}")
  = JNum (py "3").
Proof. reflexivity. Qed.

Example json_loads_nested :
  json_loads
    (py " [1, -2.5e+3, true, null, {" ++ quoted "a" ++ py ": [], "
     ++ quoted "a" ++ py ": " ++ quoted "b\u0041\n" ++ py "}] ")
  = Ok (JArr [JNum (py "1"); JNum (py "-2.5e+3"); JBool true; JNull;
              JObj [(py "a", JStr [98; 65; 10]%N)]]).
Proof. reflexivity. Qed.

Example json_loads_rejects :
  map json_loads
    [[]; py "[1,]"; py "{,}"; py "01"; py "1."; py "tru"; py "[] []";
     py "{" ++ quoted "a" ++ py " 1}"; 34%N :: py "open"; py "-"; py "1 2"]
  = repeat (Raise decode_error) 11.
Proof. reflexivity. Qed.

(** ** Persistence *)

Section PersistenceProperties.
Context {Lib : Libraries} {Srv : Services}.

(** C8, as amended. A failure to write either result file is caught inside
    [save_vlm_results]: it prints [Error saving VLM results: ] followed by
    the text of the exception and returns.  The workflow always ends with
    the message [Reprocessing finished.], and once the set-up has passed
    the main block ends normally. *)
Theorem write_failure_absorbed (candidate_df : DataFrame)
  (BASE_PLOT_DIR output_path : text) (infos : list PatternInfo) :
  infos <> [] ->
  let filename :=
    path_join output_path (py "vlm_analysis_results_" ++ now ++ py ".csv") in
  let full_filename :=
    path_join output_path (py "vlm_analysis_full_" ++ now ++ py ".csv") in
  (forall e,
      write_csv filename (SummaryTable (map summary_row infos)) = Raise e ->
      save_vlm_results infos output_path
      = [Printed (py "Error saving VLM results: " ++ exn_str e)])
  /\ (forall u e,
      write_csv filename (SummaryTable (map summary_row infos)) = Ok u ->
      write_csv full_filename (FullTable infos) = Raise e ->
      save_vlm_results infos output_path
      = [Wrote filename (SummaryTable (map summary_row infos));
         Printed (py "VLM analysis results saved to " ++ filename);
         Printed (py "Error saving VLM results: " ++ exn_str e)])
  /\ (exists events,
         workflow candidate_df BASE_PLOT_DIR
         = events ++ [Printed (py "Reprocessing finished.")])
  /\ (setup PLOT_DIRS = Ok tt ->
      main candidate_df BASE_PLOT_DIR
      = Ok (workflow candidate_df BASE_PLOT_DIR)).
Proof.
  intros Hne filename full_filename.
  split; [| split; [| split]].
  - intros e He. unfold save_vlm_results.
    destruct infos; [congruence |]. fold filename. now rewrite He.
  - intros u e Hu He. unfold save_vlm_results.
    destruct infos; [congruence |]. fold filename full_filename.
    now rewrite Hu, He.
  - unfold workflow. eexists. reflexivity.
  - intros H. unfold main. now rewrite H.
Qed.

End PersistenceProperties.

(** C8 as amended, at the table when the disk is full. *)
Lemma write_failure_absorbed_witness :
  @save_vlm_results (demo_services service_down disk_full)
    (pattern_info
       (@process_trajectories demo_libraries
          (demo_services service_down disk_full)
          (create_trajectories demo_df 5) demo_df THRESHOLDS))
    (py "plots")
  = [Printed (py "Error saving VLM results: [Errno 28] No space left on device")].
Proof.
  refine (proj1 (@write_failure_absorbed demo_libraries
                   (demo_services service_down disk_full) demo_df
                   (py "plots") (py "plots") _ _)
            (Exn OSError (py "[Errno 28] No space left on device")) eq_refl).
  vm_compute. discriminate.
Defined.

(** C8 as stated fails: no file can be written, and the run ends normally
    with the message that it has finished. *)
Lemma write_failure_counterexample :
  (forall p t,
      @write_csv (demo_services service_down disk_full) p t
      = Raise (Exn OSError (py "[Errno 28] No space left on device")))
  /\ @main demo_libraries (demo_services service_down disk_full) demo_df
       (py "plots")
     = Ok [ PrintedCreated 2;
            PrintedSummary
              {| jitter := 0; pattern_vlm := 1; no_prox := 1; processed := 2;
                 plotted := 2; likely_survey := 0; possible_survey := 0 |};
            Printed (py "Error saving VLM results: [Errno 28] No space left on device");
            Printed (py "Reprocessing finished.") ].
Proof. split; reflexivity. Qed.

(** * Properties of the rest of the two scripts *)

(** ** DataLoader *)

Lemma in_labelled_from s (rs : list RawRow) i r :
  In (i, r) (combine (map Z.of_nat (seq s (length rs))) rs) <->
  exists k, i = Z.of_nat (s + k) /\ nth_error rs k = Some r.
Proof.
  revert s. induction rs as [|x rs IH]; intros s; cbn [length seq map combine].
  - split; [intros [] | intros (k & _ & H); now destruct k].
  - cbn [In]. rewrite IH. split.
    + intros [E | (k & -> & H)].
      * inversion E; subst. exists 0%nat. split; [f_equal; lia | reflexivity].
      * exists (S k). split; [f_equal; lia | exact H].
    + intros ([|k] & -> & H).
      * left. cbn in H. inversion H. f_equal. f_equal. lia.
      * right. exists k. split; [f_equal; lia | exact H].
Qed.

Lemma in_labelled (rs : list RawRow) i r :
  In (i, r) (labelled rs) <->
  exists k, i = Z.of_nat k /\ nth_error rs k = Some r.
Proof. unfold labelled. now rewrite in_labelled_from. Qed.

Lemma labelled_from_sorted s (rs : list RawRow) :
  StronglySorted (fun a b : Z * RawRow => fst a < fst b)
    (combine (map Z.of_nat (seq s (length rs))) rs).
Proof.
  revert s. induction rs as [|x rs IH]; intros s; cbn [length seq map combine];
    constructor; [apply IH |].
  apply Forall_forall. intros [i r] H.
  apply in_labelled_from in H as (k & -> & _). cbn [fst]. lia.
Qed.

Section LoaderProperties.
Context {Pd : Pandas}.

Lemma in_to_Fix with_time ir f :
  In f (to_Fix with_time ir) <->
  exists m lat lon,
    raw_MMSI (snd ir) = Some m /\ raw_LAT (snd ir) = Some lat
    /\ raw_LON (snd ir) = Some lon
    /\ f = {| index := fst ir; MMSI := py_int m;
              BaseDateTime :=
                if with_time then parsed_time (snd ir) else None;
              LAT := lat; LON := lon; SOG := raw_SOG (snd ir) |}.
Proof.
  unfold to_Fix.
  destruct (raw_MMSI (snd ir)) as [m|], (raw_LAT (snd ir)) as [lat|],
    (raw_LON (snd ir)) as [lon|]; cbn [In];
    try (split; [intros [] | intros (m' & lat' & lon' & H1 & H2 & H3 & _);
                              discriminate]).
  split.
  - intros [<- | []]. now exists m, lat, lon.
  - intros (m' & lat' & lon' & [= <-] & [= <-] & [= <-] & ->). now left.
Qed.

Lemma to_Fix_sorted with_time f :
  StronglySorted (fun a b : Z * RawRow => fst a < fst b) f ->
  StronglySorted (fun a b => index a < index b) (flat_map (to_Fix with_time) f).
Proof.
  induction 1 as [|ir f Hs IH Hir]; cbn [flat_map]; [constructor |].
  destruct (to_Fix with_time ir) as [|x [|y l]] eqn:E; cbn [app].
  - exact IH.
  - constructor; [exact IH |]. apply Forall_forall. intros z Hz.
    apply in_flat_map in Hz as (jr & Hj & Hz).
    assert (Hx : In x (to_Fix with_time ir)) by (rewrite E; now left).
    apply in_to_Fix in Hx as (? & ? & ? & _ & _ & _ & ->).
    apply in_to_Fix in Hz as (? & ? & ? & _ & _ & _ & ->). cbn [index].
    rewrite Forall_forall in Hir. now apply Hir.
  - exfalso. unfold to_Fix in E.
    destruct (raw_MMSI (snd ir)), (raw_LAT (snd ir)), (raw_LON (snd ir));
      discriminate.
Qed.

Lemma in_bounds_spec r lat lon :
  raw_LAT r = Some lat -> raw_LON r = Some lon ->
  in_bounds r = true <->
  (-90 <= lat <= 90)%Q /\ (-180 <= lon <= 180)%Q.
Proof.
  intros Hlat Hlon. unfold in_bounds. rewrite Hlat, Hlon.
  rewrite !andb_true_iff, !Qle_bool_iff. tauto.
Qed.

(** X1. When the file is read and has the three required columns, the
    loaded table holds exactly the rows of the file whose identifier,
    latitude and longitude are present and whose coordinates lie in
    [-90, 90] x [-180, 180], each under the number of its line. *)
Theorem load_keeps_valid_rows (csv_path : text) (t : RawTable) (f : Fix) :
  read_csv csv_path = Ok t ->
  has_MMSI t && has_LAT t && has_LON t = true ->
  (In f (rows (load_ais_data csv_path)) <->
   exists i r m,
     nth_error (raw_rows t) i = Some r
     /\ raw_MMSI r = Some m
     /\ raw_LAT r = Some (LAT f) /\ raw_LON r = Some (LON f)
     /\ (-90 <= LAT f <= 90)%Q /\ (-180 <= LON f <= 180)%Q
     /\ index f = Z.of_nat i /\ MMSI f = py_int m
     /\ BaseDateTime f = (if has_BaseDateTime t then parsed_time r else None)
     /\ SOG f = raw_SOG r).
Proof.
  intros Hread Hcols. unfold load_ais_data. rewrite Hread, Hcols.
  cbn [negb rows]. rewrite in_flat_map. split.
  - intros ([i r] & Hir & Hf).
    apply filter_In in Hir as [Hir Hb]. apply filter_In in Hir as [Hir _].
    apply in_labelled in Hir as (k & -> & Hk).
    apply in_to_Fix in Hf as (m & lat & lon & Hm & Hlat & Hlon & ->).
    cbn [fst snd] in *. exists k, r, m. cbn [LAT LON index MMSI BaseDateTime SOG].
    apply (in_bounds_spec r lat lon Hlat Hlon) in Hb. tauto.
  - intros (i & r & m & Hi & Hm & Hlat & Hlon & Bl & Bo & Ei & Em & Et & Es).
    exists (Z.of_nat i, r). split.
    + apply filter_In. split; [apply filter_In; split |]; cbn [snd].
      * apply in_labelled. now exists i.
      * now rewrite Hlat, Hlon, Hm.
      * now apply (in_bounds_spec r _ _ Hlat Hlon).
    + apply in_to_Fix. exists m, (LAT f), (LON f). cbn [fst snd].
      repeat (split; [assumption |]).
      destruct f; cbn in *. now subst.
Qed.

(** The rows of the loaded table carry strictly increasing line numbers in
    their ['index'] column. *)
Lemma load_index_increasing csv_path :
  StronglySorted (fun a b => index a < index b)
    (rows (load_ais_data csv_path)).
Proof.
  unfold load_ais_data. destruct (read_csv csv_path) as [t|e];
    [| constructor].
  destruct (negb _); [constructor |]. cbn [rows].
  apply to_Fix_sorted. do 2 apply filter_strongly_sorted.
  apply labelled_from_sorted.
Qed.

(** X2. On a loaded table, every trajectory of [vlm_processing.py] lists
    the positions of its vessel in the order of the lines of the file:
    the sort by ['index'] changes nothing. *)
Theorem loaded_trajectories_in_file_order (csv_path : text)
  (min_points mmsi : Z) (traj : LineString) :
  In (mmsi, traj) (create_trajectories (load_ais_data csv_path) min_points) ->
  traj = map geometry (group_of (rows (load_ais_data csv_path)) mmsi).
Proof.
  intros H. apply in_create_trajectories in H as [_ ->].
  rewrite sort_values_id; [reflexivity |].
  apply filter_strongly_sorted.
  eapply strongly_sorted_impl; [| apply load_index_increasing].
  intros a b Hab. cbv beta in Hab. unfold by_index. apply Z.leb_le. lia.
Qed.

(** X3. When the file cannot be read, or lacks one of the columns MMSI, LAT
    and LON, or has no row with identifier and coordinates present and in
    bounds, the loaded table has no rows, no trajectory is built whatever
    the minimum of points, and the main workflow writes no file. *)
Theorem load_failure_is_empty {Lib : Libraries} {Srv : Services}
  (csv_path BASE_PLOT_DIR : text) :
  (exists e, read_csv csv_path = Raise e)
  \/ (exists t, read_csv csv_path = Ok t
                /\ has_MMSI t && has_LAT t && has_LON t = false)
  \/ (exists t, read_csv csv_path = Ok t
                /\ forall r, In r (raw_rows t) ->
                             raw_MMSI r = None \/ in_bounds r = false) ->
  rows (load_ais_data csv_path) = []
  /\ (forall min_points,
         create_trajectories (load_ais_data csv_path) min_points = [])
  /\ (forall path t,
         ~ In (Wrote path t)
             (workflow (load_ais_data csv_path) BASE_PLOT_DIR)).
Proof.
  intros H.
  assert (E : rows (load_ais_data csv_path) = []).
  { unfold load_ais_data.
    destruct H as [[e ->] | [(t & -> & ->) | (t & -> & H)]];
      [reflexivity | reflexivity |].
    destruct (negb _); [reflexivity |]. cbn [rows].
    destruct (flat_map _ _) as [|f l] eqn:Ef; [reflexivity |].
    exfalso.
    assert (Hf : In f (f :: l)) by now left.
    rewrite <- Ef in Hf. apply in_flat_map in Hf as ([i r] & Hir & Hf).
    apply filter_In in Hir as [Hir Hb]. apply filter_In in Hir as [Hir Hp].
    apply in_labelled in Hir as (k & _ & Hk). apply nth_error_In in Hk.
    cbn [snd] in *. destruct (H r Hk) as [Hm | Hn].
    - rewrite Hm in Hp. rewrite andb_false_r in Hp. discriminate.
    - congruence. }
  unfold create_trajectories, workflow, empty. rewrite E.
  split; [reflexivity |]. split; [reflexivity |].
  intros path t Hin. cbn in Hin.
  destruct Hin as [Hin | [Hin | []]]; discriminate Hin.
Qed.

End LoaderProperties.

Lemma load_keeps_valid_rows_witness :
  In {| index := 3; MMSI := 7; BaseDateTime := Some 400;
        LAT := 12; LON := 20; SOG := Some 8%Q |}
    (rows (@load_ais_data demo_pandas (py "ais.csv"))).
Proof.
  apply (proj2 (@load_keeps_valid_rows demo_pandas (py "ais.csv")
                  demo_raw_table _ eq_refl eq_refl)).
  exists 3%nat, (raw 7 "400" 12 20), 7%Q. cbn.
  repeat split; try reflexivity; discriminate.
Defined.

Lemma loaded_trajectories_in_file_order_witness :
  [(20, 10); (20, 11); (20, 12); (20, 13); (20, 14)]%Q
  = map geometry (group_of (rows (@load_ais_data demo_pandas (py "ais.csv"))) 7).
Proof.
  apply (@loaded_trajectories_in_file_order demo_pandas (py "ais.csv") 5 7).
  cbn. left. reflexivity.
Defined.

Lemma load_failure_is_empty_witness :
  rows (@load_ais_data demo_pandas (py "missing.csv")) = [].
Proof.
  apply (@load_failure_is_empty demo_pandas demo_libraries
           (demo_services service_down disk_ok) (py "missing.csv") (py "plots")).
  left. eexists. reflexivity.
Defined.

Lemma by_MMSI_BaseDateTime_total a b :
  by_MMSI_BaseDateTime a b = true \/ by_MMSI_BaseDateTime b a = true.
Proof.
  unfold by_MMSI_BaseDateTime.
  destruct (Z.lt_total (MMSI a) (MMSI b)) as [H | [H | H]].
  - left. apply orb_true_iff. left. now apply Z.ltb_lt.
  - rewrite H, Z.eqb_refl, Z.ltb_irrefl. cbn.
    apply by_BaseDateTime_total.
  - right. apply orb_true_iff. left. now apply Z.ltb_lt.
Qed.

Lemma by_MMSI_BaseDateTime_trans a b c :
  by_MMSI_BaseDateTime a b = true -> by_MMSI_BaseDateTime b c = true ->
  by_MMSI_BaseDateTime a c = true.
Proof.
  unfold by_MMSI_BaseDateTime.
  rewrite !orb_true_iff, !andb_true_iff, !Z.ltb_lt, !Z.eqb_eq.
  intros [H1 | [H1 T1]] [H2 | [H2 T2]]; try (left; lia).
  right. split; [lia |]. now apply (by_BaseDateTime_trans a b c).
Qed.

Lemma strongly_sorted_impl_in {A} (R R' : A -> A -> Prop) l :
  (forall a b, In a l -> In b l -> R a b -> R' a b) ->
  StronglySorted R l -> StronglySorted R' l.
Proof.
  intros H Hs. induction Hs as [|x l Hs IH Hx]; constructor.
  - apply IH. intros a b Ha Hb. apply H; now right.
  - rewrite Forall_forall in *. intros y Hy.
    apply H; [now left | now right | now apply Hx].
Qed.

Section LoaderTpProperties.
Context {Pd : Pandas}.

Lemma load_tp_rows (csv_path : text) :
  (forall f, In f (rows (load_ais_data_tp csv_path)) ->
             BaseDateTime f <> None
             /\ (-90 <= LAT f <= 90)%Q /\ (-180 <= LON f <= 180)%Q)
  /\ StronglySorted (fun a b => by_MMSI_BaseDateTime a b = true)
       (rows (load_ais_data_tp csv_path)).
Proof.
  unfold load_ais_data_tp. destruct (read_csv csv_path) as [t|e];
    [| split; [intros f [] | constructor]].
  destruct (negb _); [split; [intros f [] | constructor] |]. cbn [rows].
  split.
  - intros f Hf.
    apply (Permutation_in _ (sort_values_perm _ _)) in Hf.
    apply in_flat_map in Hf as ([i r] & Hir & Hf).
    apply filter_In in Hir as [Hir Hb]. apply filter_In in Hir as [_ Hp].
    apply in_to_Fix in Hf as (m & lat & lon & Hm & Hlat & Hlon & ->).
    cbn [fst snd BaseDateTime LAT LON] in *.
    apply (in_bounds_spec r lat lon Hlat Hlon) in Hb.
    split; [| exact Hb].
    destruct (parsed_time r); [discriminate | discriminate Hp].
  - apply sort_values_sorted;
      [apply by_MMSI_BaseDateTime_total | apply by_MMSI_BaseDateTime_trans].
Qed.

(** X4. Every row that [trajectory_processor.load_ais_data] returns has a
    parsed timestamp and coordinates in bounds, and the table is sorted by
    vessel and, within a vessel, by time. *)
Theorem load_tp_sorted_and_timed (csv_path : text) :
  (forall f, In f (rows (load_ais_data_tp csv_path)) ->
             BaseDateTime f <> None
             /\ (-90 <= LAT f <= 90)%Q /\ (-180 <= LON f <= 180)%Q)
  /\ StronglySorted (fun a b => by_MMSI_BaseDateTime a b = true)
       (rows (load_ais_data_tp csv_path)).
Proof. exact (load_tp_rows csv_path). Qed.

(** A sorted rearrangement of a sorted list whose keys are distinct is
    that list, whatever the sort. *)
Lemma sorted_rearrangement_unique {A K} (k : A -> K) (R : A -> A -> Prop)
  (s : list A) : forall g,
  (forall a b, R a b -> R b a -> k a = k b) ->
  Permutation s g -> StronglySorted R s -> StronglySorted R g ->
  NoDup (map k g) -> s = g.
Proof.
  induction s as [|x s IH]; intros g Hanti Hp Hs Hg Hnd.
  - apply Permutation_nil in Hp. now subst.
  - destruct g as [|y g];
      [apply Permutation_sym, Permutation_nil in Hp; discriminate |].
    inversion Hs as [|? ? Hs' Hx]; subst.
    inversion Hg as [|? ? Hg' Hy]; subst.
    cbn [map] in Hnd. inversion Hnd as [|? ? Hky Hnd']; subst.
    rewrite Forall_forall in Hx, Hy.
    assert (E : x = y).
    { assert (Hxin : In x (y :: g))
        by (apply (Permutation_in _ Hp); now left).
      assert (Hyin : In y (x :: s))
        by (apply (Permutation_in _ (Permutation_sym Hp)); now left).
      destruct Hxin as [E | Hxg]; [now symmetry |].
      destruct Hyin as [E | Hys]; [exact E |].
      exfalso. apply Hky.
      rewrite <- (Hanti x y (Hx y Hys) (Hy x Hxg)).
      now apply in_map. }
    subst y. f_equal.
    apply IH; try assumption. now apply Permutation_cons_inv in Hp.
Qed.

(** X5. On a table loaded by [trajectory_processor.py], every trajectory
    lists the positions of a rearrangement of its vessel's rows in which
    the timestamps, all of them parsed, never decrease; where no two rows
    of the vessel share a timestamp, the sort inside [create_trajectories]
    changes nothing and the trajectory follows the order of the table. *)
Theorem loaded_tp_trajectories_chronological (csv_path : text)
  (min_points mmsi : Z) (traj : LineString) :
  In (mmsi, traj)
    (create_trajectories_tp (load_ais_data_tp csv_path) min_points) ->
  let group := group_of (rows (load_ais_data_tp csv_path)) mmsi in
  let chronological :=
    fun a b => exists ta tb, BaseDateTime a = Some ta
                             /\ BaseDateTime b = Some tb /\ ta <= tb in
  (exists sorted_group,
      Permutation sorted_group group
      /\ StronglySorted chronological sorted_group
      /\ traj = map geometry sorted_group)
  /\ StronglySorted chronological group
  /\ (NoDup (map BaseDateTime group) -> traj = map geometry group).
Proof.
  intros H group chronological.
  apply in_create_trajectories_tp in H as [_ ->].
  fold group.
  destruct (load_tp_rows csv_path) as [Htimed Hsorted].
  assert (Hchron : forall l,
             (forall a, In a l -> In a group) ->
             StronglySorted (fun a b => by_BaseDateTime a b = true) l ->
             StronglySorted chronological l).
  { intros l Hl. apply strongly_sorted_impl_in.
    intros a b Ha Hb Hab. apply Hl, filter_In in Ha as [Ha _].
    apply Hl, filter_In in Hb as [Hb _].
    apply Htimed in Ha as [Ha _]. apply Htimed in Hb as [Hb _].
    unfold by_BaseDateTime in Hab.
    destruct (BaseDateTime a) as [ta|] eqn:Ea; [| congruence].
    destruct (BaseDateTime b) as [tb|] eqn:Eb; [| congruence].
    exists ta, tb. apply Z.leb_le in Hab. now repeat split. }
  assert (Hg : StronglySorted chronological group).
  { apply Hchron; [auto |].
    apply (strongly_sorted_impl_in
             (fun a b => by_MMSI_BaseDateTime a b = true));
      [| now apply filter_strongly_sorted].
    intros a b Ha Hb Hab. apply filter_In in Ha as [_ Ha].
    apply filter_In in Hb as [_ Hb]. apply Z.eqb_eq in Ha, Hb.
    unfold by_MMSI_BaseDateTime in Hab. rewrite Ha, Hb in Hab.
    now rewrite Z.ltb_irrefl, Z.eqb_refl in Hab. }
  assert (Hs : StronglySorted chronological
                 (sort_values by_BaseDateTime group)).
  { apply Hchron.
    - intros a. apply (Permutation_in _ (sort_values_perm _ _)).
    - apply sort_values_sorted;
        [apply by_BaseDateTime_total | apply by_BaseDateTime_trans]. }
  split; [| split; [exact Hg |]].
  - exists (sort_values by_BaseDateTime group).
    split; [apply sort_values_perm | now split].
  - intros Hnd. f_equal.
    apply (sorted_rearrangement_unique BaseDateTime chronological);
      try assumption; [| apply sort_values_perm].
    intros a b (ta & tb & Ea & Eb & Hab) (tb' & ta' & Eb' & Ea' & Hba).
    rewrite Ea, Eb in *. injection Eb' as <-. injection Ea' as <-.
    f_equal. lia.
Qed.

End LoaderTpProperties.

Lemma loaded_tp_trajectories_chronological_witness :
  [(20, 10); (20, 11); (20, 12); (20, 14); (20, 13)]%Q
  = map geometry
      (group_of (rows (@load_ais_data_tp demo_pandas (py "ais.csv"))) 7).
Proof.
  refine (proj2 (proj2 (@loaded_tp_trajectories_chronological demo_pandas
                          (py "ais.csv") 5 7 _ _)) _).
  - cbn. left. reflexivity.
  - vm_compute. repeat constructor; cbn; intuition discriminate.
Defined.

(** ** TrajectoryBuilder *)

Lemma sort_values_length le l : length (sort_values le l) = length l.
Proof. apply Permutation_length, sort_values_perm. Qed.

Lemma mk_LineString_not_single pts :
  length pts <> 1%nat -> mk_LineString pts = Ok pts.
Proof. destruct pts as [|p [|q r]]; cbn; congruence. Qed.

Lemma build_trajectories_succeeds column min_points groups acc :
  (forall g, In g groups -> min_points <= Z.of_nat (length (snd g)) ->
             length (snd g) <> 1%nat) ->
  build_trajectories column min_points groups acc
  = Ok (acc ++ map (fun g => (fst g, map geometry (sort_values column (snd g))))
                 (filter (fun g => min_points <=? Z.of_nat (length (snd g)))
                    groups)).
Proof.
  revert acc. induction groups as [|[k g] groups IH]; intros acc H;
    cbn [build_trajectories filter fst snd].
  - now rewrite app_nil_r.
  - assert (IH' := fun acc => IH acc (fun g Hg => H g (or_intror Hg))).
    destruct (min_points <=? Z.of_nat (length g)) eqn:E; [| apply IH'].
    rewrite mk_LineString_not_single.
    + cbn [bind map fst snd]. rewrite IH', <- app_assoc. reflexivity.
    + rewrite length_map, sort_values_length.
      apply (H (k, g)); [now left | now apply Z.leb_le].
Qed.

Lemma build_trajectories_single column min_points groups acc k g :
  In (k, g) groups -> length g = 1%nat -> min_points <= 1 ->
  exists e, build_trajectories column min_points groups acc = Raise e.
Proof.
  revert acc. induction groups as [|[k' g'] groups IH]; intros acc Hin Hlen Hmp;
    [destruct Hin |].
  cbn [build_trajectories].
  destruct Hin as [E | Hin].
  - inversion E; subst k' g'. rewrite Hlen.
    assert (Hle : (min_points <=? Z.of_nat 1) = true) by (apply Z.leb_le; lia).
    rewrite Hle.
    assert (Hs : length (map geometry (sort_values column g)) = 1%nat)
      by now rewrite length_map, sort_values_length.
    destruct (map geometry (sort_values column g)) as [|p [|q r]];
      try discriminate.
    cbn. eexists. reflexivity.
  - destruct (min_points <=? Z.of_nat (length g')); [| now apply IH].
    destruct (mk_LineString _) as [l|e]; cbn [bind];
      [now apply IH | now exists e].
Qed.

Lemma group_of_nonempty_key rs m :
  group_of rs m <> [] -> In (m, group_of rs m) (groupby rs).
Proof.
  intros H. unfold groupby. apply in_map_iff. exists m. split; [reflexivity |].
  apply in_group_keys. destruct (group_of rs m) as [|r l] eqn:E; [congruence |].
  assert (Hr : In r (group_of rs m)) by (rewrite E; now left).
  apply filter_In in Hr as [Hr Hm]. apply Z.eqb_eq in Hm.
  apply in_map_iff. now exists r.
Qed.

Lemma keys_of_filtered_groups rs (p : Z * list Fix -> bool)
  (f : Z * list Fix -> Z * LineString) :
  (forall g, fst (f g) = fst g) ->
  StronglySorted Z.lt (map fst (map f (filter p (groupby rs)))).
Proof.
  intros Hf. rewrite map_map.
  rewrite (map_ext _ fst) by exact Hf.
  unfold groupby. induction (group_keys_sorted rs) as [|k ks Hs IH Hk];
    cbn [map filter]; [constructor |].
  assert (Hall : Forall (Z.lt k)
                   (map fst (filter p (map (fun k0 => (k0, group_of rs k0)) ks)))).
  { apply Forall_forall. intros x Hx. apply in_map_iff in Hx as ([k' g] & <- & Hx).
    apply filter_In in Hx as [Hx _]. apply in_map_iff in Hx as (k'' & E & Hx).
    inversion E; subst. cbn [fst]. rewrite Forall_forall in Hk. now apply Hk. }
  destruct (p (k, group_of rs k)); [cbn [map fst]; now constructor | exact IH].
Qed.

(** X6. The vessels of the trajectories that [create_trajectories] returns
    come in strictly ascending order of their identifier, so each vessel
    has at most one trajectory; the same holds in
    [trajectory_processor.py]. *)
Theorem trajectories_ascending (df : DataFrame) (min_points : Z) :
  StronglySorted Z.lt (map fst (create_trajectories df min_points))
  /\ StronglySorted Z.lt (map fst (create_trajectories_tp df min_points)).
Proof.
  split.
  - rewrite create_trajectories_unguarded.
    destruct (build_trajectories _ _ _ _) as [res|e] eqn:E; [| constructor].
    apply build_trajectories_ok in E. subst res. cbn [app].
    now apply keys_of_filtered_groups.
  - unfold create_trajectories_tp. destruct (empty df); [constructor |].
    destruct (build_trajectories _ _ _ _) as [res|e] eqn:E; [| constructor].
    apply build_trajectories_ok in E. subst res. cbn [app].
    now apply keys_of_filtered_groups.
Qed.

(** X7. With a minimum of at least two points, the vessels that get a
    trajectory are exactly those with at least that many fixes in the
    table, and the trajectory has one point per fix. *)
Theorem trajectories_complete (df : DataFrame) (min_points mmsi : Z) :
  2 <= min_points ->
  (In mmsi (map fst (create_trajectories df min_points)) <->
   min_points <= Z.of_nat (length (group_of (rows df) mmsi)))
  /\ (forall traj, In (mmsi, traj) (create_trajectories df min_points) ->
                   length traj = length (group_of (rows df) mmsi)).
Proof.
  intros Hmp. split.
  - split.
    + intros H. apply in_map_iff in H as ([k traj] & E & H). cbn [fst] in E.
      subst k. now apply in_create_trajectories in H as [H _].
    + intros H. rewrite create_trajectories_unguarded.
      rewrite build_trajectories_succeeds.
      * cbn [app]. rewrite map_map. apply in_map_iff.
        exists (mmsi, group_of (rows df) mmsi). split; [reflexivity |].
        apply filter_In. split; [| now apply Z.leb_le].
        apply group_of_nonempty_key. intros E. rewrite E in H. cbn in H. lia.
      * intros g _ Hg. lia.
  - intros traj H. apply in_create_trajectories in H as [_ ->].
    now rewrite length_map, sort_values_length.
Qed.

(** X8. With a minimum of one point or less, a single vessel that has
    exactly one fix makes [LineString] raise, and [create_trajectories]
    then returns no trajectory at all, for any vessel. *)
Theorem single_fix_empties_result (df : DataFrame) (min_points mmsi : Z) :
  min_points <= 1 ->
  length (group_of (rows df) mmsi) = 1%nat ->
  create_trajectories df min_points = [].
Proof.
  intros Hmp Hlen. rewrite create_trajectories_unguarded.
  destruct (build_trajectories_single by_index min_points
              (groupby (rows df)) [] mmsi (group_of (rows df) mmsi))
    as [e ->]; try assumption; [| reflexivity].
  apply group_of_nonempty_key. intros E. now rewrite E in Hlen.
Qed.

Lemma trajectories_complete_witness :
  In 111 (map fst (create_trajectories demo_df 5)).
Proof.
  apply (proj1 (trajectories_complete demo_df 5 111 ltac:(lia))).
  cbn. lia.
Defined.

Lemma single_fix_empties_result_witness :
  create_trajectories lonely_df 1 = [].
Proof.
  apply (single_fix_empties_result lonely_df 1 9); [lia | reflexivity].
Defined.

(** ** The per-vessel loop *)

Lemma classify_pattern_inv m th :
  classify m th = PotentialPattern -> 0 < proximity_hits m.
Proof.
  unfold classify.
  destruct (avg_sog m) as [s|];
    [destruct (Qltb s (speed th) && small_and_dense m th)
    | destruct (small_and_dense m th)]; cbn [negb]; try discriminate;
    destruct (0 <? proximity_hits m) eqn:E; try discriminate;
    intros _; now apply Z.ltb_lt.
Qed.

Lemma is_str_eq v s : is_str v s = true -> v = JStr (py s).
Proof.
  destruct v; cbn; try discriminate. intros H.
  apply text_eqb_eq in H. now subst.
Qed.

Section LoopSemantics.
Context {Lib : Libraries} {Srv : Services}.

Lemma iteration_classification df th st e :
  let st' := iteration (vessel_body df th) st e in
  jitter (counts st')
  = jitter (counts st)
    + (if classified_as [LikelyJitter; LikelyJitterNoSOG] df th e
       then 1 else 0)
  /\ pattern_vlm (counts st')
     = pattern_vlm (counts st)
       + (if classified_as [PotentialPattern] df th e then 1 else 0)
  /\ no_prox (counts st')
     = no_prox (counts st)
       + (if classified_as [NoSignificantProximity] df th e then 1 else 0)
  /\ pattern_mmsis st'
     = pattern_mmsis st
       ++ (if classified_as [PotentialPattern] df th e then [fst e] else []).
Proof.
  unfold iteration, classified_as, classification_of, vessel_body.
  destruct (get_group (rows df) (fst e)) as [g|err];
    [| cbn; rewrite app_nil_r; repeat split; lia].
  destruct (project (snd e)) as [[|p pl]|err]; cbn [is_empty];
    [cbn; rewrite app_nil_r; repeat split; lia |
     | cbn; rewrite app_nil_r; repeat split; lia].
  unfold verify, count_classification.
  destruct (classify _ th) eqn:Ec; cbn [plot_dir_of existsb Classification_eqb orb];
    repeat split_match; cbn; rewrite ?app_nil_r; repeat split; lia.
Qed.

(** X9. Each classification counter of [process_trajectories] is the number
    of input trajectories that the filter logic puts in its class, among
    those whose vessel is in the table and whose projection is a non-empty
    line; [pattern_mmsis] lists the vessels of the potential patterns in
    the order of the input. *)
Theorem counters_count_classes (trajectories : list (Z * LineString))
  (df : DataFrame) (th : Thresholds) :
  let r := process_trajectories trajectories df th in
  jitter (counts r)
  = count_where (classified_as [LikelyJitter; LikelyJitterNoSOG] df th)
      trajectories
  /\ pattern_vlm (counts r)
     = count_where (classified_as [PotentialPattern] df th) trajectories
  /\ no_prox (counts r)
     = count_where (classified_as [NoSignificantProximity] df th) trajectories
  /\ pattern_mmsis r
     = map fst (filter (classified_as [PotentialPattern] df th) trajectories).
Proof.
  unfold process_trajectories.
  assert (H : forall st,
    let st' := fold_left (iteration (vessel_body df th)) trajectories st in
    jitter (counts st')
    = jitter (counts st)
      + count_where (classified_as [LikelyJitter; LikelyJitterNoSOG] df th)
          trajectories
    /\ pattern_vlm (counts st')
       = pattern_vlm (counts st)
         + count_where (classified_as [PotentialPattern] df th) trajectories
    /\ no_prox (counts st')
       = no_prox (counts st)
         + count_where (classified_as [NoSignificantProximity] df th)
             trajectories
    /\ pattern_mmsis st'
       = pattern_mmsis st
         ++ map fst (filter (classified_as [PotentialPattern] df th)
                       trajectories)).
  { unfold count_where.
    induction trajectories as [|e l IH]; intros st; cbn [fold_left filter].
    - cbn. rewrite app_nil_r. repeat split; lia.
    - specialize (IH (iteration (vessel_body df th) st e)).
      pose proof (iteration_classification df th st e) as H.
      cbv zeta in *.
      destruct IH as (I1 & I2 & I3 & I4). destruct H as (H1 & H2 & H3 & H4).
      rewrite I4, H4.
      destruct (classified_as [LikelyJitter; LikelyJitterNoSOG] df th e),
        (classified_as [PotentialPattern] df th e),
        (classified_as [NoSignificantProximity] df th e);
        cbn [length map fst]; rewrite <- ?app_assoc; cbn [app];
        rewrite ?app_nil_r; repeat split; lia. }
  specialize (H start). cbv zeta in *. cbn in H. exact H.
Qed.

End LoopSemantics.

Lemma count_where_app {A} (f : A -> bool) l1 l2 :
  count_where f (l1 ++ l2) = count_where f l1 + count_where f l2.
Proof. unfold count_where. rewrite filter_app, length_app. lia. Qed.

Section RunConsistency.
Context {Lib : Libraries} {Srv : Services}.

Lemma vessel_body_consistent df th mmsi traj st :
  consistent st -> consistent (fst (vessel_body df th mmsi traj st)).
Proof.
  unfold consistent. intros (H1 & H2 & H3 & H4 & H5 & H6 & H7).
  unfold vessel_body.
  destruct (get_group (rows df) mmsi) as [g|err]; [| cbn; tauto].
  destruct (project traj) as [[|p pl]|err]; cbn [is_empty];
    [cbn; tauto | | cbn; tauto].
  unfold verify, count_classification.
  destruct (classify _ th) eqn:Ec; cbn [plot_dir_of]; repeat split_match;
    cbn [fst counts pattern_mmsis pattern_info plots copies with_counts
         add_plot add_copy add_pattern_info add_pattern_mmsi
         plotted pattern_vlm likely_survey possible_survey
         incr_plotted incr_jitter incr_pattern_vlm incr_no_prox
         incr_likely_survey incr_possible_survey];
    rewrite ?length_app, ?map_app, ?filter_app, ?count_where_app;
    unfold count_where in *;
    cbn [length map filter in_dir PlotDir_eqb fst snd app mmsi_of];
    rewrite ?map_app, ?app_nil_r, ?Nat2Z.inj_add; cbn [map snd].
  all: repeat match goal with |- _ /\ _ => split end; try lia; try assumption;
    try (rewrite H5; reflexivity).
  all: try (intros i Hi;
    first
      [ apply in_app_iff in Hi; destruct Hi as [Hi | [<- | []]];
        [ destruct (H6 i Hi); split;
          [assumption | rewrite ?in_app_iff; auto]
        | cbn [prox_hits mmsi_of]; split;
          [ now apply classify_pattern_inv in Ec
          | rewrite ?in_app_iff; right; now left ] ]
      | destruct (H6 i Hi); split;
        [assumption | rewrite ?in_app_iff; auto] ]; fail).
  all: try (intros f Hf;
    first
      [ apply in_app_iff in Hf; destruct Hf as [Hf | [<- | []]];
        [ destruct (H7 f Hf) as (i & Hi & Hrest); exists i; split;
          [rewrite ?in_app_iff; auto | exact Hrest]
        | eexists; split;
          [ apply in_app_iff; right; left; reflexivity
          | cbn [mmsi_of snd fst survey_classification];
            split; [reflexivity |];
            first [ left; split; [reflexivity | apply is_str_eq; assumption]
                  | right; split; [reflexivity | apply is_str_eq; assumption] ] ] ]
      | destruct (H7 f Hf) as (i & Hi & Hrest); exists i; split;
        [rewrite ?in_app_iff; auto | exact Hrest] ]; fail).
Qed.

Lemma iteration_consistent df th st e :
  consistent st -> consistent (iteration (vessel_body df th) st e).
Proof.
  intros H. unfold iteration.
  pose proof (vessel_body_consistent df th (fst e) (snd e) st H) as H'.
  destruct (vessel_body df th (fst e) (snd e) st) as [st' s].
  cbn [fst] in H'. destruct s; exact H'.
Qed.

Lemma process_trajectories_consistent trajectories df th :
  consistent (process_trajectories trajectories df th).
Proof.
  unfold process_trajectories.
  assert (H : consistent start).
  { unfold consistent, count_where. cbn.
    repeat (split; [reflexivity |]). split; intros ? []. }
  revert H. generalize start.
  induction trajectories as [|e l IH]; intros st H; [exact H |].
  cbn [fold_left]. now apply IH, iteration_consistent.
Qed.

(** X10. In what [process_trajectories] returns, [pattern_vlm] is the
    length of [pattern_mmsis]; the entries of [pattern_info] are, in
    order, the vessels whose plot was saved in the directory of the
    potential patterns; every entry has at least one proximity hit and its
    vessel is in [pattern_mmsis]; [likely_survey] and [possible_survey]
    count the copies made into their directories; and every copy belongs
    to an entry whose recorded classification is the label of that
    directory. *)
Theorem run_is_consistent (trajectories : list (Z * LineString))
  (df : DataFrame) (th : Thresholds) :
  let r := process_trajectories trajectories df th in
  plotted (counts r) = Z.of_nat (length (plots r))
  /\ pattern_vlm (counts r) = Z.of_nat (length (pattern_mmsis r))
  /\ likely_survey (counts r)
     = count_where (in_dir likely_survey_dir) (copies r)
  /\ possible_survey (counts r)
     = count_where (in_dir possible_survey_dir) (copies r)
  /\ map mmsi_of (pattern_info r)
     = map snd (filter (in_dir pattern_dir) (plots r))
  /\ (forall i, In i (pattern_info r) ->
        0 < prox_hits i /\ In (mmsi_of i) (pattern_mmsis r))
  /\ (forall f, In f (copies r) ->
        exists i, In i (pattern_info r) /\ mmsi_of i = snd f
          /\ ((fst f = likely_survey_dir
               /\ survey_classification i = JStr (py "LIKELY_SURVEY_PATTERN"))
              \/ (fst f = possible_survey_dir
                  /\ survey_classification i
                     = JStr (py "POSSIBLE_SURVEY_PATTERN")))).
Proof. exact (process_trajectories_consistent trajectories df th). Qed.

(** X11. The accounts of a run, in both scripts: [processed] is the number
    of input trajectories less those whose vessel is in the table and
    whose projection is empty, and the three classification counters sum
    to [processed] less the trajectories whose vessel is missing from the
    table or whose reprojection raised. *)
Theorem run_accounts (trajectories : list (Z * LineString))
  (df : DataFrame) (th : Thresholds) :
  let r := process_trajectories trajectories df th in
  let r' := process_trajectories_tp trajectories df th in
  processed (counts r)
  = Z.of_nat (length trajectories)
    - count_where (projects_empty df) trajectories
  /\ classified (counts r)
     = processed (counts r) - count_where (fails_early df) trajectories
  /\ processed (counts r') = processed (counts r)
  /\ classified (counts r') = classified (counts r).
Proof.
  intros r r'.
  destruct (process_trajectories_accounting trajectories df th) as [H1 H2].
  destruct (process_trajectories_tp_accounting trajectories df th)
    as [H3 H4].
  fold r in H1, H2. fold r' in H3, H4. repeat split; lia.
Qed.

End RunConsistency.

(** ** ProximityAnalyzer *)

Lemma filter_length_le {A} (f g : A -> bool) l :
  (forall x, f x = true -> g x = true) ->
  (length (filter f l) <= length (filter g l))%nat.
Proof.
  intros H. induction l as [|x l IH]; cbn [filter]; [lia |].
  destruct (f x) eqn:E.
  - rewrite (H x E). cbn. lia.
  - destruct (g x); cbn; lia.
Qed.

Section HitsMonotone.
Context {Lib : Libraries}.

Lemma counted_monotone coords t t' w i j :
  (t <= t')%Q -> counted coords t w i j = true ->
  counted coords t' w i j = true.
Proof.
  unfold counted. intros Ht H. apply andb_true_iff in H as [Hw Hd].
  rewrite Hw. cbn. apply Qltb_lt in Hd. apply Qltb_lt.
  eapply Qlt_le_trans; eassumption.
Qed.

Lemma scan_monotone coords t t' :
  (t <= t')%Q -> scan coords t <= scan coords t'.
Proof.
  intros Ht. rewrite !scan_hit_pairs. apply Nat2Z.inj_le.
  unfold hit_pairs. cbv zeta.
  induction (range 0 (length coords)) as [|i l IH]; cbn [flat_map]; [lia |].
  rewrite !length_app, !length_map.
  pose proof (filter_length_le
                (counted coords t (adjacency_window (length coords)) i)
                (counted coords t' (adjacency_window (length coords)) i)
                (range (i + 1) (length coords))
                (fun j => counted_monotone coords t t' _ i j Ht)).
  lia.
Qed.

(** X12. The proximity count grows with the threshold: a larger threshold
    never gives fewer hits, on any input. *)
Theorem hits_grow_with_threshold (trajectory : option LineString)
  (t t' : Q) :
  (t <= t')%Q ->
  count_self_proximity_hits trajectory t
  <= count_self_proximity_hits trajectory t'.
Proof.
  intros Ht. unfold count_self_proximity_hits. cbv zeta.
  destruct trajectory as [traj|]; [| lia].
  destruct (is_empty traj); [lia |].
  destruct (length traj <? 5)%nat; [lia |].
  unfold count_body. destruct (project traj) as [p|e]; cbn [bind]; [| lia].
  destruct (is_empty p); [lia |]. destruct (length p <? 5)%nat; [lia |].
  now apply scan_monotone.
Qed.

Lemma far_count (w : Z) (i n : nat) :
  0 <= w ->
  Z.of_nat
    (length (filter (fun j => negb (Z.abs (Z.of_nat i - Z.of_nat j) <=? w))
               (range (i + 1) n)))
  <= Z.max 0 (Z.of_nat n - Z.of_nat (i + 1) - w).
Proof.
  intros Hw.
  set (far := filter _ _).
  assert (Hincl : incl far (seq (i + 1 + Z.to_nat w) (n - (i + 1) - Z.to_nat w))).
  { intros j Hj. apply filter_In in Hj as [Hr Hf].
    apply in_range in Hr. apply negb_true_iff, Z.leb_gt in Hf.
    apply in_seq. lia. }
  assert (Hnd : NoDup far) by (apply NoDup_filter, seq_NoDup).
  pose proof (NoDup_incl_length Hnd Hincl) as Hlen.
  rewrite length_seq in Hlen. lia.
Qed.

Lemma counted_far coords t w i j :
  counted coords t w i j = true ->
  negb (Z.abs (Z.of_nat i - Z.of_nat j) <=? w) = true.
Proof. unfold counted. intros H. now apply andb_true_iff in H as [H _]. Qed.

Lemma hit_pairs_bound coords t w n len : forall s,
  0 <= w -> (s + len = n)%nat ->
  2 * Z.of_nat
        (length
           (flat_map
              (fun i => map (pair i)
                          (filter (counted coords t w i) (range (i + 1) n)))
              (seq s len)))
  <= Z.max 0 (Z.of_nat len - 1 - w) * (Z.max 0 (Z.of_nat len - 1 - w) + 1).
Proof.
  induction len as [|len IH]; intros s Hw Hs.
  - cbn. lia.
  - cbn [seq flat_map]. rewrite length_app, length_map.
    specialize (IH (S s) Hw ltac:(lia)).
    pose proof (filter_length_le (counted coords t w s)
                  (fun j => negb (Z.abs (Z.of_nat s - Z.of_nat j) <=? w))
                  (range (s + 1) n)
                  (fun j => counted_far coords t w s j)) as Hle.
    pose proof (far_count w s n Hw) as Hfar.
    set (a := length (filter (counted coords t w s) (range (s + 1) n))) in *.
    set (b := length (flat_map _ _)) in *.
    set (c := length (filter _ (range (s + 1) n))) in *.
    assert (Ha : Z.of_nat a <= Z.max 0 (Z.of_nat len - w)) by lia.
    rewrite Nat2Z.inj_add, Nat2Z.inj_succ.
    destruct (Z_lt_le_dec (Z.of_nat len - w) 1) as [Hsmall|Hbig].
    + assert (Z.max 0 (Z.of_nat len - 1 - w) = 0) by lia. nia.
    + replace (Z.max 0 (Z.succ (Z.of_nat len) - 1 - w))
        with (Z.of_nat len - w) by lia.
      replace (Z.max 0 (Z.of_nat len - 1 - w))
        with (Z.of_nat len - w - 1) in IH by lia.
      nia.
Qed.

Lemma scan_bound coords t :
  2 * scan coords t
  <= Z.max 0 (Z.of_nat (length coords) - 1 - adjacency_window (length coords))
     * (Z.max 0 (Z.of_nat (length coords) - 1
                 - adjacency_window (length coords)) + 1).
Proof.
  rewrite scan_hit_pairs. unfold hit_pairs, range. cbv zeta.
  rewrite Nat.sub_0_r.
  apply (hit_pairs_bound coords t _ (length coords) (length coords) 0%nat);
    [unfold adjacency_window; lia | lia].
Qed.

(** X13. The hits are at most the number of pairs of projected points that
    lie further apart in the list than the adjacency window: with [n]
    projected points and window [w], at most [m (m + 1) / 2] for
    [m = max 0 (n - 1 - w)]. *)
Theorem hits_at_most_far_pairs (trajectory projected : LineString) (t : Q) :
  project trajectory = Ok projected ->
  2 * count_self_proximity_hits (Some trajectory) t
  <= Z.max 0 (Z.of_nat (length projected) - 1
              - adjacency_window (length projected))
     * (Z.max 0 (Z.of_nat (length projected) - 1
                 - adjacency_window (length projected)) + 1).
Proof.
  intros Hp.
  assert (H0 : forall m, 2 * 0 <= Z.max 0 m * (Z.max 0 m + 1)) by (intros; nia).
  unfold count_self_proximity_hits. cbv zeta.
  destruct (is_empty trajectory); [apply H0 |].
  destruct (length trajectory <? 5)%nat; [apply H0 |].
  unfold count_body. rewrite Hp. cbn [bind].
  destruct (is_empty projected); [apply H0 |].
  destruct (length projected <? 5)%nat; [apply H0 |].
  apply scan_bound.
Qed.

End HitsMonotone.

Lemma hits_grow_with_threshold_witness :
  @count_self_proximity_hits demo_libraries (Some track_111) 60
  <= @count_self_proximity_hits demo_libraries (Some track_111) 200.
Proof.
  apply (@hits_grow_with_threshold demo_libraries (Some track_111) 60 200).
  discriminate.
Defined.

Lemma hits_at_most_far_pairs_witness :
  2 * @count_self_proximity_hits demo_libraries (Some track_111) 200
  <= Z.max 0 (Z.of_nat (length track_111) - 1
              - adjacency_window (length track_111))
     * (Z.max 0 (Z.of_nat (length track_111) - 1
                 - adjacency_window (length track_111)) + 1).
Proof.
  refine (@hits_at_most_far_pairs demo_libraries track_111
            (to_metres track_111) 200 _).
  reflexivity.
Defined.

(** ** ProjectionEngine *)

Lemma py_int_floor q : (0 <= q)%Q -> py_int q = Qfloor q.
Proof.
  destruct q as [n d]. unfold Qle, py_int, Qfloor. cbn. intros H.
  apply Z.quot_div_nonneg; lia.
Qed.

Section ZoneProperties.
Context {Lib : Libraries}.

(** X14. For a longitude between -180 and 180, both included,
    [estimate_utm_crs] asks for a zone between 1 and 61, south of the
    equator exactly for a negative latitude; zone 61, which is no UTM
    zone, is what it asks for at longitude 180. *)
Theorem utm_zone_bounds (lat lon : Q) :
  (-180 <= lon)%Q -> (lon <= 180)%Q ->
  estimate_utm_crs lat lon = CRS_from_dict (utm_zone lon) (Qltb lat 0)
  /\ 1 <= utm_zone lon <= 61
  /\ (Qltb lat 0 = true <-> (lat < 0)%Q)
  /\ utm_zone 180 = 61.
Proof.
  intros Hlo Hhi.
  set (q := ((lon + 180) / 6)%Q).
  assert (Eq6 : (q * 6 == lon + 180)%Q) by (unfold q; field).
  assert (Hq0 : (0 <= q)%Q) by lra.
  assert (Hq60 : (q <= 60)%Q) by lra.
  assert (Ez : utm_zone lon = Qfloor q + 1)
    by (unfold utm_zone; fold q; now rewrite py_int_floor).
  assert (Hf0 : 0 <= Qfloor q).
  { change 0 with (Qfloor 0). now apply Qfloor_resp_le. }
  assert (Hf60 : Qfloor q <= 60).
  { change 60 with (Qfloor 60). now apply Qfloor_resp_le. }
  split; [reflexivity |]. split; [lia |].
  split; [apply Qltb_lt | reflexivity].
Qed.

End ZoneProperties.

Lemma utm_zone_bounds_witness : 1 <= utm_zone (-90) <= 61.
Proof.
  apply (@utm_zone_bounds demo_libraries 29 (-90)); discriminate.
Defined.

(** ** Classifier *)

(** X15. The two scripts classify alike except when the speed is missing
    and the track is small and dense: there [vlm_processing.py] says
    jitter without speed data, while [trajectory_processor.py], for a hits
    threshold that is not negative, says potential pattern.  Without a
    speed, [trajectory_processor.py] never says jitter. *)
Theorem classifiers_differ_without_speed (m : Metrics) (th : Thresholds) :
  (classify m th <> LikelyJitterNoSOG -> classify_tp m th = classify m th)
  /\ (classify m th = LikelyJitterNoSOG -> 0 <= hits th ->
      classify_tp m th = PotentialPattern)
  /\ (avg_sog m = None ->
      classify_tp m th = PotentialPattern
      \/ classify_tp m th = NoSignificantProximity).
Proof.
  split; [apply classify_tp_agrees |]. split.
  - intros H Hh. apply classify_jitter_no_sog_inv in H as [Hs Hd].
    apply small_and_dense_strict in Hd as (_ & _ & Hd).
    unfold classify_tp. rewrite Hs. cbn [negb].
    assert (E : (0 <? proximity_hits m) = true) by (apply Z.ltb_lt; lia).
    now rewrite E.
  - intros Hs. unfold classify_tp. rewrite Hs. cbn [negb].
    destruct (0 <? proximity_hits m); auto.
Qed.

Lemma classifiers_differ_without_speed_witness :
  classify_tp {| avg_sog := None; length_km := 1; bbox_width_m := 100;
                 bbox_height_m := 100; proximity_hits := 60 |} THRESHOLDS
  = PotentialPattern.
Proof.
  apply (proj1 (proj2 (classifiers_differ_without_speed
           {| avg_sog := None; length_km := 1; bbox_width_m := 100;
              bbox_height_m := 100; proximity_hits := 60 |} THRESHOLDS)));
    [reflexivity | discriminate].
Defined.

(** ** Verifier: reading an answer back *)

Lemma lex_cons st c s :
  lex st (c :: s)
  = match lex_step st c with
    | LexError => None
    | LexGo st' toks =>
        match lex st' s with
        | Some rest => Some (toks ++ rest)
        | None => None
        end
    end.
Proof. reflexivity. Qed.














(** X17. A text that starts with a character no JSON value starts with,
    such as the back quote of a code fence or a capital T, is a parsing
    error whatever follows. *)
Theorem preamble_is_parsing_error (c : N) (rest : text) :
  lex_start c = LexError ->
  extract_classification (c :: rest) = JStr (py "PARSING_ERROR").
Proof.
  intros H. unfold extract_classification, json_loads.
  rewrite lex_cons. cbn [lex_step]. now rewrite H.
Qed.


Lemma preamble_is_parsing_error_witness :
  extract_classification
    (py "```json" ++ answer_with "LIKELY_SURVEY_PATTERN" "parallel lines")
  = JStr (py "PARSING_ERROR").
Proof.
  exact (preamble_is_parsing_error 96%N _ eq_refl).
Defined.

(** ** Metrics *)

Lemma Qmin2_spec a b : (Qmin2 a b <= a /\ Qmin2 a b <= b)%Q.
Proof.
  unfold Qmin2. destruct (Qle_bool a b) eqn:E.
  - apply Qle_bool_iff in E. split; [apply Qle_refl | exact E].
  - split; [| apply Qle_refl]. apply Qlt_le_weak, Qnot_le_lt.
    intros H. apply Qle_bool_iff in H. congruence.
Qed.

Lemma Qmax2_spec a b : (a <= Qmax2 a b /\ b <= Qmax2 a b)%Q.
Proof.
  unfold Qmax2. destruct (Qle_bool a b) eqn:E.
  - apply Qle_bool_iff in E. split; [exact E | apply Qle_refl].
  - split; [apply Qle_refl |]. apply Qlt_le_weak, Qnot_le_lt.
    intros H. apply Qle_bool_iff in H. congruence.
Qed.

Lemma bounds_fold r : forall minx miny maxx maxy,
  let '(minx', miny', maxx', maxy') :=
    fold_left bounds_step r (minx, miny, maxx, maxy) in
  (minx' <= minx /\ miny' <= miny /\ maxx <= maxx' /\ maxy <= maxy')%Q
  /\ forall q, In q r ->
       (minx' <= fst q /\ fst q <= maxx' /\ miny' <= snd q /\ snd q <= maxy')%Q.
Proof.
  induction r as [|p r IH]; intros minx miny maxx maxy.
  - cbn. split; [repeat split; apply Qle_refl | intros ? []].
  - cbn [fold_left bounds_step].
    specialize (IH (Qmin2 minx (fst p)) (Qmin2 miny (snd p))
                  (Qmax2 maxx (fst p)) (Qmax2 maxy (snd p))).
    destruct (fold_left bounds_step r _) as [[[a b] c] d].
    destruct IH as [(H1 & H2 & H3 & H4) Hin].
    pose proof (Qmin2_spec minx (fst p)) as [? ?].
    pose proof (Qmin2_spec miny (snd p)) as [? ?].
    pose proof (Qmax2_spec maxx (fst p)) as [? ?].
    pose proof (Qmax2_spec maxy (snd p)) as [? ?].
    split; [repeat split; lra |].
    intros q [<-|Hq]; [repeat split; lra | now apply Hin].
Qed.

Lemma bounds_hold l :
  let '(minx, miny, maxx, maxy) := bounds l in
  (minx <= maxx /\ miny <= maxy)%Q
  /\ forall q, In q l ->
       (minx <= fst q /\ fst q <= maxx /\ miny <= snd q /\ snd q <= maxy)%Q.
Proof.
  destruct l as [|p r].
  - cbn. split; [repeat split; apply Qle_refl | intros ? []].
  - change (bounds (p :: r))
      with (fold_left bounds_step r (fst p, snd p, fst p, snd p)).
    pose proof (bounds_fold r (fst p) (snd p) (fst p) (snd p)) as H.
    destruct (fold_left bounds_step r _) as [[[a b] c] d].
    destruct H as [(H1 & H2 & H3 & H4) Hin].
    split; [split; lra |].
    intros q [<-|Hq]; [repeat split; lra | now apply Hin].
Qed.

Section MetricsProperties.
Context {Lib : Libraries}.

(** X18. The metrics of a vessel hold a bounding box that is not negative
    in width or height and that spans the projected points: any two of
    them differ by at most the width in x and by at most the height in y;
    the hits are not negative either. *)
Theorem metrics_span_the_track (df : DataFrame) (mmsi_group : list Fix)
  (traj projected_line : LineString) :
  let m := metrics_of df mmsi_group traj projected_line in
  (0 <= bbox_width_m m)%Q /\ (0 <= bbox_height_m m)%Q
  /\ 0 <= proximity_hits m
  /\ forall p q, In p projected_line -> In q projected_line ->
       (fst p - fst q <= bbox_width_m m)%Q
       /\ (snd p - snd q <= bbox_height_m m)%Q.
Proof.
  unfold metrics_of.
  pose proof (bounds_hold projected_line) as H.
  destruct (bounds projected_line) as [[[minx miny] maxx] maxy].
  destruct H as [[Hx Hy] Hin]. cbn [bbox_width_m bbox_height_m proximity_hits].
  split; [lra |]. split; [lra |]. split; [apply count_nonneg |].
  intros p q Hp Hq. pose proof (Hin p Hp). pose proof (Hin q Hq).
  split; lra.
Qed.

End MetricsProperties.

(** ** Persistence *)

Section Written.
Context {Lib : Libraries} {Srv : Services}.




End Written.

